(** * react-viewport-utils: the viewport collector

    A shallow embedding of [src/lib/ViewportCollector.tsx]: the scroll
    sampler ([handleScroll] with [isScrollingLeft] / [isScrollingUp]), the
    dimension sampler ([getClientDimensions], [createInitDimensionsState])
    and the per-frame publication ([tick], [syncState],
    [getPropsFromState] with the two memoised copies).

    Conventions of the embedding
    - a scroll offset or a size read from the window is an integer
      ([number], that is [Z]): pixel counts, signed because the deltas
      since a turn are; offsets are compared with [<], [>], [===] and
      subtracted, sizes are combined with [Math.max].  The two direction
      tests are also embedded on every value of the JavaScript type
      number, NaN and the infinities included ([Js.isScrollingLeft],
      [Js.isScrollingUp]); on window offsets the two embeddings agree;
    - [throw new Error (msg)] is the result [Throw msg];
    - the component instance ([this]) is the record [Collector]; methods
      are computations in the monad [M], which threads the instance, may
      throw (the instance keeps the writes made before the throw) and
      records the calls made to the consumer's callbacks;
    - an object whose identity is observable by a consumer is a value of
      [Obj]: a reference together with its fields.  Such objects are
      created by a spread copy and never written afterwards.  The two raw
      state objects are written in place but never leave the instance, so
      they are kept as plain records inside [Collector]. *)

From Stdlib Require Import ZArith QArith List Bool String Lia.
Import ListNotations.
Local Open Scope Z_scope.

(** ** Numbers, results *)

Definition number : Type := Z.

Inductive result (A : Type) : Type :=
| Ok (a : A)
| Throw (msg : string).

Arguments Ok {A} a.
Arguments Throw {A} msg.

(** ** Data model *)

(** [IScroll] (see also the interface in [ConnectViewport.tsx]). *)
Module IScroll.

Record t : Type := mk {
  x : number;
  y : number;
  isScrollingUp : bool;
  isScrollingDown : bool;
  isScrollingLeft : bool;
  isScrollingRight : bool;
  xTurn : number;
  yTurn : number;
  xDTurn : number;
  yDTurn : number
}.

(** Field assignments [s.f = v]. *)
Definition set_x (v : number) (s : t) : t :=
  mk v (y s) (isScrollingUp s) (isScrollingDown s) (isScrollingLeft s)
     (isScrollingRight s) (xTurn s) (yTurn s) (xDTurn s) (yDTurn s).

Definition set_y (v : number) (s : t) : t :=
  mk (x s) v (isScrollingUp s) (isScrollingDown s) (isScrollingLeft s)
     (isScrollingRight s) (xTurn s) (yTurn s) (xDTurn s) (yDTurn s).

Definition set_isScrollingUp (v : bool) (s : t) : t :=
  mk (x s) (y s) v (isScrollingDown s) (isScrollingLeft s)
     (isScrollingRight s) (xTurn s) (yTurn s) (xDTurn s) (yDTurn s).

Definition set_isScrollingDown (v : bool) (s : t) : t :=
  mk (x s) (y s) (isScrollingUp s) v (isScrollingLeft s)
     (isScrollingRight s) (xTurn s) (yTurn s) (xDTurn s) (yDTurn s).

Definition set_isScrollingLeft (v : bool) (s : t) : t :=
  mk (x s) (y s) (isScrollingUp s) (isScrollingDown s) v
     (isScrollingRight s) (xTurn s) (yTurn s) (xDTurn s) (yDTurn s).

Definition set_isScrollingRight (v : bool) (s : t) : t :=
  mk (x s) (y s) (isScrollingUp s) (isScrollingDown s) (isScrollingLeft s)
     v (xTurn s) (yTurn s) (xDTurn s) (yDTurn s).

Definition set_xTurn (v : number) (s : t) : t :=
  mk (x s) (y s) (isScrollingUp s) (isScrollingDown s) (isScrollingLeft s)
     (isScrollingRight s) v (yTurn s) (xDTurn s) (yDTurn s).

Definition set_yTurn (v : number) (s : t) : t :=
  mk (x s) (y s) (isScrollingUp s) (isScrollingDown s) (isScrollingLeft s)
     (isScrollingRight s) (xTurn s) v (xDTurn s) (yDTurn s).

Definition set_xDTurn (v : number) (s : t) : t :=
  mk (x s) (y s) (isScrollingUp s) (isScrollingDown s) (isScrollingLeft s)
     (isScrollingRight s) (xTurn s) (yTurn s) v (yDTurn s).

Definition set_yDTurn (v : number) (s : t) : t :=
  mk (x s) (y s) (isScrollingUp s) (isScrollingDown s) (isScrollingLeft s)
     (isScrollingRight s) (xTurn s) (yTurn s) (xDTurn s) v.

End IScroll.

(** [IDimensions]. *)
Module IDimensions.

Record t : Type := mk {
  width : number;
  height : number;
  clientWidth : number;
  clientHeight : number;
  outerWidth : number;
  outerHeight : number;
  documentWidth : number;
  documentHeight : number
}.

End IDimensions.

(** The host environment read by the dimension sampler.  [window] and
    [document] are global identifiers.  Outside a browser such an
    identifier may not be declared at all: reading it then throws a
    ReferenceError, while [typeof] of it is 'undefined'.  A declared
    identifier holds [undefined] or an object, and a document may lack
    its root element. *)
Module Dom.

Inductive Global (A : Type) : Type :=
| undeclared
| declared (v : option A).

Arguments undeclared {A}.
Arguments declared {A} v.

Record Window : Type := mkWindow {
  innerWidth : number;
  innerHeight : number;
  outerWidth : number;
  outerHeight : number
}.

Record Element : Type := mkElement {
  clientWidth : number;
  clientHeight : number;
  scrollHeight : number;
  scrollWidth : number;
  offsetHeight : number;
  offsetWidth : number
}.

Record Document : Type := mkDocument {
  documentElement : option Element
}.

Record Env : Type := mkEnv {
  window : Global Window;
  document : Global Document
}.

End Dom.

(** An object with an observable identity. *)
Record Obj (A : Type) : Type := mkObj {
  ref : nat;
  fields : A
}.

Arguments mkObj {A} ref fields.
Arguments ref {A} o.
Arguments fields {A} o.

(** [IViewport], the public snapshot, and the second argument of the
    update callbacks. *)
Record IViewport : Type := mkViewport {
  scroll : Obj IScroll.t;
  dimensions : Obj IDimensions.t
}.

Record UpdateOptions : Type := mkOptions {
  scrollDidUpdate : bool;
  dimensionsDidUpdate : bool
}.

(** Calls leaving the collector: [this.props.onUpdate (...)] and the call
    into the debounced [this.updateOnIdle (...)]. *)
Inductive Call : Type :=
| OnUpdate (publicState : IViewport) (options : UpdateOptions)
| UpdateOnIdle (publicState : IViewport) (options : UpdateOptions).

(** [IProps], as far as the collector can tell: calling [onUpdate] with
    a snapshot and the flags either returns or throws.  [onIdledUpdate]
    is only called from the debounced body of [updateOnIdle]. *)
Record IProps : Type := mkProps {
  onUpdate : IViewport -> UpdateOptions -> result unit
}.

(** The cell of a [memoize-one] wrapper with one argument: nothing before
    the first call, afterwards the last argument and the last result. *)
Definition MemoCell (A B : Type) : Type := option (A * B).

(** The instance fields of [ViewportCollector], the cells of its two
    memoised methods, the next unused object reference, and [this.props]. *)
Record Collector : Type := mkCollector {
  scrollState : IScroll.t;
  dimensionsState : IDimensions.t;
  lastSyncedScrollState : Obj IScroll.t;
  lastSyncedDimensionsState : Obj IDimensions.t;
  componentMightHaveUpdated : bool;
  getPublicScroll_cell : MemoCell (Obj IScroll.t) (Obj IScroll.t);
  getPublicDimensions_cell : MemoCell (Obj IDimensions.t) (Obj IDimensions.t);
  nextRef : nat;
  props : IProps
}.

Definition set_scrollState (v : IScroll.t) (c : Collector) : Collector :=
  mkCollector v (dimensionsState c) (lastSyncedScrollState c)
    (lastSyncedDimensionsState c) (componentMightHaveUpdated c)
    (getPublicScroll_cell c) (getPublicDimensions_cell c) (nextRef c) (props c).

Definition set_dimensionsState (v : IDimensions.t) (c : Collector) : Collector :=
  mkCollector (scrollState c) v (lastSyncedScrollState c)
    (lastSyncedDimensionsState c) (componentMightHaveUpdated c)
    (getPublicScroll_cell c) (getPublicDimensions_cell c) (nextRef c) (props c).

Definition set_lastSyncedScrollState (v : Obj IScroll.t) (c : Collector) : Collector :=
  mkCollector (scrollState c) (dimensionsState c) v
    (lastSyncedDimensionsState c) (componentMightHaveUpdated c)
    (getPublicScroll_cell c) (getPublicDimensions_cell c) (nextRef c) (props c).

Definition set_lastSyncedDimensionsState (v : Obj IDimensions.t) (c : Collector) : Collector :=
  mkCollector (scrollState c) (dimensionsState c) (lastSyncedScrollState c)
    v (componentMightHaveUpdated c)
    (getPublicScroll_cell c) (getPublicDimensions_cell c) (nextRef c) (props c).

Definition set_componentMightHaveUpdated (v : bool) (c : Collector) : Collector :=
  mkCollector (scrollState c) (dimensionsState c) (lastSyncedScrollState c)
    (lastSyncedDimensionsState c) v
    (getPublicScroll_cell c) (getPublicDimensions_cell c) (nextRef c) (props c).

Definition set_getPublicScroll_cell
  (v : MemoCell (Obj IScroll.t) (Obj IScroll.t)) (c : Collector) : Collector :=
  mkCollector (scrollState c) (dimensionsState c) (lastSyncedScrollState c)
    (lastSyncedDimensionsState c) (componentMightHaveUpdated c)
    v (getPublicDimensions_cell c) (nextRef c) (props c).

Definition set_getPublicDimensions_cell
  (v : MemoCell (Obj IDimensions.t) (Obj IDimensions.t)) (c : Collector) : Collector :=
  mkCollector (scrollState c) (dimensionsState c) (lastSyncedScrollState c)
    (lastSyncedDimensionsState c) (componentMightHaveUpdated c)
    (getPublicScroll_cell c) v (nextRef c) (props c).

Definition set_nextRef (v : nat) (c : Collector) : Collector :=
  mkCollector (scrollState c) (dimensionsState c) (lastSyncedScrollState c)
    (lastSyncedDimensionsState c) (componentMightHaveUpdated c)
    (getPublicScroll_cell c) (getPublicDimensions_cell c) v (props c).

(** ** The method monad *)

(** A method body: from the instance to a result, the instance as the
    body left it, and the callback calls it made, oldest first.  After a
    throw nothing more of the body runs. *)
Definition M (A : Type) : Type := Collector -> result A * Collector * list Call.

Definition ret {A : Type} (a : A) : M A := fun c => (Ok a, c, []).

Definition bind {A B : Type} (m : M A) (k : A -> M B) : M B :=
  fun c =>
    match m c with
    | (Ok a, c1, calls1) =>
        match k a c1 with
        | (r, c2, calls2) => (r, c2, calls1 ++ calls2)
        end
    | (Throw msg, c1, calls1) => (Throw msg, c1, calls1)
    end.

Notation "v <- m ;; k" := (bind m (fun v => k))
  (at level 61, m at next level, right associativity).
Notation "m ;; k" := (bind m (fun _ => k))
  (at level 61, right associativity).

Definition lift {A : Type} (r : result A) : M A := fun c => (r, c, []).
Definition gets {A : Type} (f : Collector -> A) : M A := fun c => (Ok (f c), c, []).
Definition modify (f : Collector -> Collector) : M unit := fun c => (Ok tt, f c, []).
Definition call (e : Call) : M unit := fun c => (Ok tt, c, [e]).

(** [this.props.onUpdate (publicState, options)]: the call is made, and
    the consumer returns or throws. *)
Definition callOnUpdate (publicState : IViewport) (options : UpdateOptions) : M unit :=
  fun c => (onUpdate (props c) publicState options, c, [OnUpdate publicState options]).
Definition when (b : bool) (m : M unit) : M unit := if b then m else ret tt.

(** [{ ...o }]: a new object with the fields of [o]. *)
Definition spread {A : Type} (o : A) : M (Obj A) :=
  r <- gets nextRef ;;
  modify (set_nextRef (S r)) ;;
  ret (mkObj r o).

(** ** Scroll sampling *)

Definition isScrollingLeft (x : number) (prev : IScroll.t) : result bool :=
  if x <? IScroll.x prev then Ok true
  else if x >? IScroll.x prev then Ok false
  else if x =? IScroll.x prev then Ok (IScroll.isScrollingLeft prev)
  else Throw "Could not calculate isScrollingLeft".

Definition isScrollingUp (y : number) (prev : IScroll.t) : result bool :=
  if y <? IScroll.y prev then Ok true
  else if y >? IScroll.y prev then Ok false
  else if y =? IScroll.y prev then Ok (IScroll.isScrollingUp prev)
  else Throw "Could not calculate yDir".

(** The direction tests on every value of the type number.  A number is
    NaN, an infinity or a finite value (the two zeros compare equal and
    are one value here); [<], [>] and [===] are false as soon as an
    operand is NaN, and compare the other values in their order. *)
Module Js.

Inductive number : Type :=
| NaN
| Infinity (negative : bool)
| Finite (q : Q).

Definition lt (a b : number) : bool :=
  match a, b with
  | NaN, _ | _, NaN => false
  | Infinity na, Infinity nb => na && negb nb
  | Infinity na, Finite _ => na
  | Finite _, Infinity nb => negb nb
  | Finite p, Finite q =>
      match Qcompare p q with
      | Lt => true
      | _ => false
      end
  end.

Definition gt (a b : number) : bool := lt b a.

Definition strictEq (a b : number) : bool :=
  match a, b with
  | Infinity na, Infinity nb => Bool.eqb na nb
  | Finite p, Finite q => Qeq_bool p q
  | _, _ => false
  end.

Module IScroll.

Record t : Type := mk {
  x : number;
  y : number;
  isScrollingUp : bool;
  isScrollingDown : bool;
  isScrollingLeft : bool;
  isScrollingRight : bool;
  xTurn : number;
  yTurn : number;
  xDTurn : number;
  yDTurn : number
}.

End IScroll.

Definition isScrollingLeft (x : number) (prev : IScroll.t) : result bool :=
  if lt x (IScroll.x prev) then Ok true
  else if gt x (IScroll.x prev) then Ok false
  else if strictEq x (IScroll.x prev) then Ok (IScroll.isScrollingLeft prev)
  else Throw "Could not calculate isScrollingLeft".

Definition isScrollingUp (y : number) (prev : IScroll.t) : result bool :=
  if lt y (IScroll.y prev) then Ok true
  else if gt y (IScroll.y prev) then Ok false
  else if strictEq y (IScroll.y prev) then Ok (IScroll.isScrollingUp prev)
  else Throw "Could not calculate yDir".

End Js.

(** A window offset as a number, and a scroll state of window offsets as
    a scroll state of numbers. *)
Definition ofOffset (z : number) : Js.number := Js.Finite (inject_Z z).

Definition ofScroll (s : IScroll.t) : Js.IScroll.t :=
  Js.IScroll.mk
    (ofOffset (IScroll.x s)) (ofOffset (IScroll.y s))
    (IScroll.isScrollingUp s) (IScroll.isScrollingDown s)
    (IScroll.isScrollingLeft s) (IScroll.isScrollingRight s)
    (ofOffset (IScroll.xTurn s)) (ofOffset (IScroll.yTurn s))
    (ofOffset (IScroll.xDTurn s)) (ofOffset (IScroll.yDTurn s)).

Definition createInitScrollState : IScroll.t :=
  IScroll.mk 0 0 false false false false 0 0 0 0.

(** [this.scrollState.f = v]. *)
Definition assignScroll (f : IScroll.t -> IScroll.t) : M unit :=
  modify (fun c => set_scrollState (f (scrollState c)) c).

(** [handleScroll], after [const { x, y } = getNodeScroll ()]: the sample
    read from the window is the argument. *)
Definition handleScroll (x y : number) : M unit :=
  prev <- gets scrollState ;;
  let prevIsScrollingLeft := IScroll.isScrollingLeft prev in
  let prevIsScrollingUp := IScroll.isScrollingUp prev in
  let prevXTurn := IScroll.xTurn prev in
  let prevYTurn := IScroll.yTurn prev in
  s <- gets scrollState ;;
  l <- lift (isScrollingLeft x s) ;;
  assignScroll (IScroll.set_isScrollingLeft l) ;;
  s <- gets scrollState ;;
  assignScroll (IScroll.set_isScrollingRight (negb (IScroll.isScrollingLeft s))) ;;
  s <- gets scrollState ;;
  u <- lift (isScrollingUp y s) ;;
  assignScroll (IScroll.set_isScrollingUp u) ;;
  s <- gets scrollState ;;
  assignScroll (IScroll.set_isScrollingDown (negb (IScroll.isScrollingUp s))) ;;
  s <- gets scrollState ;;
  assignScroll (IScroll.set_xTurn
    (if Bool.eqb (IScroll.isScrollingLeft s) prevIsScrollingLeft then prevXTurn else x)) ;;
  s <- gets scrollState ;;
  assignScroll (IScroll.set_yTurn
    (if Bool.eqb (IScroll.isScrollingUp s) prevIsScrollingUp then prevYTurn else y)) ;;
  s <- gets scrollState ;;
  assignScroll (IScroll.set_xDTurn (x - IScroll.xTurn s)) ;;
  s <- gets scrollState ;;
  assignScroll (IScroll.set_yDTurn (y - IScroll.yTurn s)) ;;
  assignScroll (IScroll.set_x x) ;;
  assignScroll (IScroll.set_y y) ;;
  modify (set_componentMightHaveUpdated true).

(** ** Dimension sampling *)

Definition createEmptyDimensionState : IDimensions.t :=
  IDimensions.mk 0 0 0 0 0 0 0 0.

(** [Math.max] of three numbers. *)
Definition max3 (a b c : number) : number := Z.max (Z.max a b) c.

(** [getClientDimensions]: the guard reads [document] itself, which
    throws where the identifier is not declared; then the two
    destructuring reads: reading an undeclared [window] is a
    ReferenceError, destructuring [undefined] a TypeError. *)
Definition getClientDimensions (env : Dom.Env) : result IDimensions.t :=
  match Dom.document env with
  | Dom.undeclared => Throw "ReferenceError: document is not defined"
  | Dom.declared None => Ok createEmptyDimensionState
  | Dom.declared (Some doc) =>
      match Dom.documentElement doc with
      | None => Ok createEmptyDimensionState
      | Some el =>
          match Dom.window env with
          | Dom.undeclared => Throw "ReferenceError: window is not defined"
          | Dom.declared None => Throw "TypeError: cannot destructure window"
          | Dom.declared (Some w) =>
              Ok (IDimensions.mk
                    (Dom.innerWidth w)
                    (Dom.innerHeight w)
                    (Dom.clientWidth el)
                    (Dom.clientHeight el)
                    (Dom.outerWidth w)
                    (Dom.outerHeight w)
                    (max3 (Dom.scrollWidth el) (Dom.offsetWidth el) (Dom.clientWidth el))
                    (max3 (Dom.scrollHeight el) (Dom.offsetHeight el) (Dom.clientHeight el)))
          end
      end
  end.

(** [createInitDimensionsState]: [typeof window === 'undefined'] first,
    which holds for an undeclared [window] and for one holding
    [undefined], and throws for neither. *)
Definition createInitDimensionsState (env : Dom.Env) : result IDimensions.t :=
  match Dom.window env with
  | Dom.undeclared | Dom.declared None => Ok createEmptyDimensionState
  | Dom.declared (Some _) => getClientDimensions env
  end.

(** The body wrapped by [simpleDebounce] in [handleResize]; the wrapper
    decides when the body runs, one run reads the geometry of [env].
    [Object.assign] overwrites all eight fields of the raw state. *)
Definition handleResize (env : Dom.Env) : M unit :=
  d <- lift (getClientDimensions env) ;;
  modify (set_dimensionsState d) ;;
  modify (set_componentMightHaveUpdated true).

(** ** Shallow equality and memoisation *)

(** Modelled from the spec: [shallowEqualScroll] of [./utils], which is
    not among the sources; the spec calls it field-wise shallow equality
    of two scroll states. *)
Definition shallowEqualScroll (a b : IScroll.t) : bool :=
  (IScroll.x a =? IScroll.x b) &&
  (IScroll.y a =? IScroll.y b) &&
  Bool.eqb (IScroll.isScrollingUp a) (IScroll.isScrollingUp b) &&
  Bool.eqb (IScroll.isScrollingDown a) (IScroll.isScrollingDown b) &&
  Bool.eqb (IScroll.isScrollingLeft a) (IScroll.isScrollingLeft b) &&
  Bool.eqb (IScroll.isScrollingRight a) (IScroll.isScrollingRight b) &&
  (IScroll.xTurn a =? IScroll.xTurn b) &&
  (IScroll.yTurn a =? IScroll.yTurn b) &&
  (IScroll.xDTurn a =? IScroll.xDTurn b) &&
  (IScroll.yDTurn a =? IScroll.yDTurn b).

(** Modelled from the spec: [shallowEqualDimensions] of [./utils], which
    is not among the sources; field-wise shallow equality of two
    dimension states. *)
Definition shallowEqualDimensions (a b : IDimensions.t) : bool :=
  (IDimensions.width a =? IDimensions.width b) &&
  (IDimensions.height a =? IDimensions.height b) &&
  (IDimensions.clientWidth a =? IDimensions.clientWidth b) &&
  (IDimensions.clientHeight a =? IDimensions.clientHeight b) &&
  (IDimensions.outerWidth a =? IDimensions.outerWidth b) &&
  (IDimensions.outerHeight a =? IDimensions.outerHeight b) &&
  (IDimensions.documentWidth a =? IDimensions.documentWidth b) &&
  (IDimensions.documentHeight a =? IDimensions.documentHeight b).

(** [memoize (resultFn, isEqual)] of the package memoize-one, for a
    function of one argument called on the same instance: the last result
    is returned when [isEqual] accepts the new argument against the last
    one; otherwise [resultFn] runs and the cell is overwritten.  [cell]
    and [set_cell] locate the wrapper's closure variables. *)
Definition memoize {A B : Type}
  (cell : Collector -> MemoCell A B)
  (set_cell : MemoCell A B -> Collector -> Collector)
  (resultFn : A -> M B) (isEqual : A -> A -> bool) (newArg : A) : M B :=
  let recompute :=
    r <- resultFn newArg ;;
    modify (set_cell (Some (newArg, r))) ;;
    ret r in
  m <- gets cell ;;
  match m with
  | Some (lastArg, lastResult) =>
      if isEqual newArg lastArg then ret lastResult else recompute
  | None => recompute
  end.

Definition getPublicScroll : Obj IScroll.t -> M (Obj IScroll.t) :=
  memoize getPublicScroll_cell set_getPublicScroll_cell
    (fun scroll => spread (fields scroll))
    (fun a b => shallowEqualScroll (fields a) (fields b)).

Definition getPublicDimensions : Obj IDimensions.t -> M (Obj IDimensions.t) :=
  memoize getPublicDimensions_cell set_getPublicDimensions_cell
    (fun dimensions => spread (fields dimensions))
    (fun a b => shallowEqualDimensions (fields a) (fields b)).

(** ** Publication *)

Definition getPropsFromState : M IViewport :=
  ls <- gets lastSyncedScrollState ;;
  s <- getPublicScroll ls ;;
  ld <- gets lastSyncedDimensionsState ;;
  d <- getPublicDimensions ld ;;
  ret (mkViewport s d).

Definition syncState : M unit :=
  ls <- gets lastSyncedScrollState ;;
  cur <- gets scrollState ;;
  let scrollDidUpdate := negb (shallowEqualScroll (fields ls) cur) in
  ld <- gets lastSyncedDimensionsState ;;
  curd <- gets dimensionsState ;;
  let dimensionsDidUpdate := negb (shallowEqualDimensions (fields ld) curd) in
  when scrollDidUpdate
    (cur <- gets scrollState ;;
     o <- spread cur ;;
     modify (set_lastSyncedScrollState o)) ;;
  when dimensionsDidUpdate
    (curd <- gets dimensionsState ;;
     o <- spread curd ;;
     modify (set_lastSyncedDimensionsState o)) ;;
  when (scrollDidUpdate || dimensionsDidUpdate)
    (publicState <- getPropsFromState ;;
     callOnUpdate publicState (mkOptions scrollDidUpdate dimensionsDidUpdate) ;;
     call (UpdateOnIdle publicState (mkOptions scrollDidUpdate dimensionsDidUpdate))).

(** One run of [tick], that is one animation frame.  [tick] is an arrow
    function of the instance, so its outer test [if (this)] holds; the
    request for the next frame ([raf (this.tick)]), its last statement,
    is made in [tickOnPage].  When [onUpdate] throws, the error leaves
    [syncState] and [tick] before the dirty flag is cleared. *)
Definition tick : M unit :=
  dirty <- gets componentMightHaveUpdated ;;
  when dirty syncState ;;
  modify (set_componentMightHaveUpdated false).

(** The constructor: the raw states, then a copy of each, dimensions
    first.  [componentMightHaveUpdated] is left unset, which [tick] reads
    as false. *)
Definition constructor (properties : IProps) (env : Dom.Env) : result Collector :=
  match createInitDimensionsState env with
  | Throw msg => Throw msg
  | Ok dims =>
      Ok (mkCollector createInitScrollState dims
            (mkObj 1%nat createInitScrollState) (mkObj 0%nat dims)
            false None None 2%nat properties)
  end.

(** ** Runs of the collector *)

(** What the host can do with a mounted collector: deliver a scroll
    event with the sampled offsets, let the debounced resize body run in
    an environment, run an animation frame, read the public state. *)
Inductive Input : Type :=
| ScrollEvent (x y : number)
| ResizeEvent (env : Dom.Env)
| AnimationFrame
| ReadProps.

Definition dispatch (i : Input) : M unit :=
  match i with
  | ScrollEvent x y => handleScroll x y
  | ResizeEvent env => handleResize env
  | AnimationFrame => tick
  | ReadProps => getPropsFromState ;; ret tt
  end.

(** A handler that throws leaves the instance as it is at the throw; the
    host goes on with the next input.  A frame in which [onUpdate] threw
    requests no further frame (see [tickOnPage]); [run] admits frames
    after it all the same, so that what holds of every run holds of the
    runs a page can produce. *)
Fixpoint run (inputs : list Input) (c : Collector) : Collector * list Call :=
  match inputs with
  | [] => (c, [])
  | i :: rest =>
      match dispatch i c with
      | (_, c1, calls1) =>
          match run rest c1 with
          | (c2, calls2) => (c2, calls1 ++ calls2)
          end
      end
  end.

(** A sequence of scroll samples as inputs. *)
Definition scrollSamples (samples : list (number * number)) : list Input :=
  map (fun p => ScrollEvent (fst p) (snd p)) samples.

(** The snapshots handed to [onUpdate], oldest first. *)
Fixpoint onUpdateCalls (calls : list Call) : list (IViewport * UpdateOptions) :=
  match calls with
  | [] => []
  | OnUpdate v o :: rest => (v, o) :: onUpdateCalls rest
  | UpdateOnIdle _ _ :: rest => onUpdateCalls rest
  end.

(** Shallow equality of two snapshots on both sides. *)
Definition shallowEqualViewport (a b : IViewport) : bool :=
  shallowEqualScroll (fields (scroll a)) (fields (scroll b)) &&
  shallowEqualDimensions (fields (dimensions a)) (fields (dimensions b)).

(** ** Mounting on a page *)

(** The part of the host the lifecycle methods act on.  A listener is
    registered under its event type, its callback and its capture flag,
    and [removeEventListener] removes the registration with the same
    three; an options object without [capture] means capture = false.
    [raf] hands out a new handle and keeps the request until the frame
    runs it or [raf.cancel] drops it. *)
Module Page.

Inductive EventType : Type := scroll | resize | orientationchange.

(** The callbacks of this collector, and those of the rest of the page. *)
Inductive Callback : Type :=
| handleScroll
| handleResize
| tick
| foreign (id : nat).

(** The third argument of [addEventListener]: a boolean, or
    [{ passive: ... }]. *)
Inductive ListenerOptions : Type :=
| useCapture (b : bool)
| passiveOption (passive : bool).

Definition captureOf (o : ListenerOptions) : bool :=
  match o with
  | useCapture b => b
  | passiveOption _ => false
  end.

Record Registration : Type := mkRegistration {
  type : EventType;
  callback : Callback;
  capture : bool
}.

Definition eventType_eqb (a b : EventType) : bool :=
  match a, b with
  | scroll, scroll | resize, resize | orientationchange, orientationchange => true
  | _, _ => false
  end.

Definition callback_eqb (a b : Callback) : bool :=
  match a, b with
  | handleScroll, handleScroll | handleResize, handleResize | tick, tick => true
  | foreign i, foreign j => Nat.eqb i j
  | _, _ => false
  end.

Definition registration_eqb (a b : Registration) : bool :=
  eventType_eqb (type a) (type b) &&
  callback_eqb (callback a) (callback b) &&
  Bool.eqb (capture a) (capture b).

Record t : Type := mk {
  listeners : list Registration;
  frameRequests : list (nat * Callback);
  nextHandle : nat
}.

Definition addEventListener
  (ty : EventType) (cb : Callback) (o : ListenerOptions) (p : t) : t :=
  let r := mkRegistration ty cb (captureOf o) in
  if existsb (registration_eqb r) (listeners p) then p
  else mk (listeners p ++ [r]) (frameRequests p) (nextHandle p).

Definition removeEventListener
  (ty : EventType) (cb : Callback) (o : ListenerOptions) (p : t) : t :=
  let r := mkRegistration ty cb (captureOf o) in
  mk (filter (fun r' => negb (registration_eqb r r')) (listeners p))
     (frameRequests p) (nextHandle p).

Definition raf (cb : Callback) (p : t) : nat * t :=
  (nextHandle p,
   mk (listeners p) (frameRequests p ++ [(nextHandle p, cb)]) (S (nextHandle p))).

Definition cancel (handle : nat) (p : t) : t :=
  mk (listeners p)
     (filter (fun q => negb (Nat.eqb (fst q) handle)) (frameRequests p))
     (nextHandle p).

End Page.

(** A collector on a page: the instance, its [tickId] (unset before
    mounting) and the page. *)
Record Mounted : Type := mkMounted {
  instance : Collector;
  tickId : option nat;
  page : Page.t
}.

(** [componentDidMount]; [browserSupportsPassiveEvents] is a constant of
    [./utils]. *)
Definition componentDidMount (browserSupportsPassiveEvents : bool) (m : Mounted) : Mounted :=
  let options :=
    if browserSupportsPassiveEvents then Page.passiveOption true
    else Page.useCapture false in
  let p := Page.addEventListener Page.scroll Page.handleScroll options (page m) in
  let p := Page.addEventListener Page.resize Page.handleResize options p in
  let p := Page.addEventListener Page.orientationchange Page.handleResize options p in
  let (handle, p) := Page.raf Page.tick p in
  mkMounted (instance m) (Some handle) p.

(** [componentWillUnmount]; cancelling an unset [tickId] cancels nothing. *)
Definition componentWillUnmount (m : Mounted) : Mounted :=
  let p := Page.removeEventListener Page.scroll Page.handleScroll
             (Page.useCapture false) (page m) in
  let p := Page.removeEventListener Page.resize Page.handleResize
             (Page.useCapture false) p in
  let p := Page.removeEventListener Page.orientationchange Page.handleResize
             (Page.useCapture false) p in
  let p := match tickId m with
           | Some handle => Page.cancel handle p
           | None => p
           end in
  mkMounted (instance m) (tickId m) p.

(** The whole of [tick]: the frame body, then
    [this.tickId = raf (this.tick)], which an error leaving the body
    skips; the error itself goes to the host. *)
Definition tickOnPage (m : Mounted) : Mounted * list Call :=
  match tick (instance m) with
  | (Ok _, c, cs) =>
      let (handle, p) := Page.raf Page.tick (page m) in
      (mkMounted c (Some handle) p, cs)
  | (Throw _, c, cs) => (mkMounted c (tickId m) (page m), cs)
  end.

(** An animation frame of the page: the requests pending at its start
    are taken off the page and run in order; only [tick] is a callback of
    the collector. *)
Fixpoint runRequests (due : list (nat * Page.Callback)) (m : Mounted)
  : Mounted * list Call :=
  match due with
  | [] => (m, [])
  | (_, Page.tick) :: rest =>
      match tickOnPage m with
      | (m1, cs1) =>
          match runRequests rest m1 with
          | (m2, cs2) => (m2, cs1 ++ cs2)
          end
      end
  | _ :: rest => runRequests rest m
  end.

Definition animationFrame (m : Mounted) : Mounted * list Call :=
  let p := page m in
  runRequests (Page.frameRequests p)
    (mkMounted (instance m) (tickId m)
       (Page.mk (Page.listeners p) [] (Page.nextHandle p))).

(** What happens to a mounted collector: a frame of the page, or one of
    the inputs of [dispatch] other than a frame. *)
Inductive PageInput : Type :=
| PageFrame
| Deliver (i : Input).

Definition pageStep (a : PageInput) (m : Mounted) : Mounted * list Call :=
  match a with
  | PageFrame => animationFrame m
  | Deliver AnimationFrame => (m, [])
  | Deliver i =>
      match dispatch i (instance m) with
      | (_, c, cs) => (mkMounted c (tickId m) (page m), cs)
      end
  end.

Fixpoint pageRun (inputs : list PageInput) (m : Mounted) : Mounted * list Call :=
  match inputs with
  | [] => (m, [])
  | a :: rest =>
      match pageStep a m with
      | (m1, cs1) =>
          match pageRun rest m1 with
          | (m2, cs2) => (m2, cs1 ++ cs2)
          end
      end
  end.

(** ** Notions used in the statements and proofs *)

(** The instance after a method body, and the calls the body made. *)
Definition exec {A : Type} (m : M A) (c : Collector) : Collector := snd (fst (m c)).
Definition calls {A : Type} (m : M A) (c : Collector) : list Call := snd (m c).

(** Whether a method body returned or threw. *)
Definition outcome {A : Type} (m : M A) (c : Collector) : result A := fst (fst (m c)).

(** The flag computed by the three reachable cases of [isScrollingLeft]
    and [isScrollingUp]. *)
Definition nextDirection (v pv : number) (prevFlag : bool) : bool :=
  if v <? pv then true else if v >? pv then false else prevFlag.

(** The raw scroll state [handleScroll] leaves behind, in closed form. *)
Definition scrollAfter (x y : number) (s : IScroll.t) : IScroll.t :=
  let l := nextDirection x (IScroll.x s) (IScroll.isScrollingLeft s) in
  let u := nextDirection y (IScroll.y s) (IScroll.isScrollingUp s) in
  let xt := if Bool.eqb l (IScroll.isScrollingLeft s) then IScroll.xTurn s else x in
  let yt := if Bool.eqb u (IScroll.isScrollingUp s) then IScroll.yTurn s else y in
  IScroll.mk x y u (negb u) l (negb l) xt yt (x - xt) (y - yt).

(** Exactly one of three tests holds. *)
Definition exactlyOne (a b c : bool) : Prop :=
  (a = true /\ b = false /\ c = false) \/
  (a = false /\ b = true /\ c = false) \/
  (a = false /\ b = false /\ c = true).

(** What a scroll sample establishes: each complementary flag is the
    negation of its partner and each delta is the distance to the turn. *)
Definition sampled (s : IScroll.t) : Prop :=
  IScroll.isScrollingDown s = negb (IScroll.isScrollingUp s) /\
  IScroll.isScrollingRight s = negb (IScroll.isScrollingLeft s) /\
  IScroll.xDTurn s = IScroll.x s - IScroll.xTurn s /\
  IScroll.yDTurn s = IScroll.y s - IScroll.yTurn s.

(** At most one flag of each pair is set. *)
Definition exclusiveFlags (s : IScroll.t) : Prop :=
  IScroll.isScrollingUp s && IScroll.isScrollingDown s = false /\
  IScroll.isScrollingLeft s && IScroll.isScrollingRight s = false.

(** Environments and collectors for concrete runs: no browser at all
    (neither global is declared), a 1024 x 768 window, and a host that
    defines [window] but declares no [document]. *)
Definition noBrowser : Dom.Env := Dom.mkEnv Dom.undeclared Dom.undeclared.

Definition desktop : Dom.Env :=
  Dom.mkEnv (Dom.declared (Some (Dom.mkWindow 1024 768 1040 860)))
            (Dom.declared
               (Some (Dom.mkDocument (Some (Dom.mkElement 1009 768 2400 1009 2400 1009))))).

Definition windowOnly : Dom.Env :=
  Dom.mkEnv (Dom.declared (Some (Dom.mkWindow 1024 768 1040 860))) Dom.undeclared.

(** A consumer whose [onUpdate] returns, and one whose [onUpdate]
    throws. *)
Definition quietProps : IProps := mkProps (fun _ _ => Ok tt).

Definition throwingProps : IProps := mkProps (fun _ _ => Throw "consumer error").

Definition blankCollector : Collector :=
  mkCollector createInitScrollState createEmptyDimensionState
    (mkObj 1%nat createInitScrollState) (mkObj 0%nat createEmptyDimensionState)
    false None None 2%nat quietProps.

(** The result held by a memo cell is a copy of the argument held. *)
Definition cellCopies {A : Type} (cell : MemoCell (Obj A) (Obj A)) : Prop :=
  match cell with
  | None => True
  | Some (lastArg, lastResult) => fields lastResult = fields lastArg
  end.

(** The result held by a memo cell was allocated before [n]. *)
Definition cellBelow {A : Type} (n : nat) (cell : MemoCell (Obj A) (Obj A)) : Prop :=
  match cell with
  | None => True
  | Some (_, lastResult) => (ref lastResult < n)%nat
  end.

(** What every run of the collector maintains about the two cells. *)
Definition wellFormed (c : Collector) : Prop :=
  cellCopies (getPublicScroll_cell c) /\
  cellCopies (getPublicDimensions_cell c) /\
  cellBelow (nextRef c) (getPublicScroll_cell c) /\
  cellBelow (nextRef c) (getPublicDimensions_cell c).

(** The snapshot [v] is the one the cells hold, for arguments with the
    fields of the last synced copies. *)
Definition publishedAs (v : IViewport) (c : Collector) : Prop :=
  (exists a, getPublicScroll_cell c = Some (a, scroll v) /\
             fields a = fields (lastSyncedScrollState c)) /\
  (exists a, getPublicDimensions_cell c = Some (a, dimensions v) /\
             fields a = fields (lastSyncedDimensionsState c)).

(** The outcome of [getPublicScroll] when the copy is made anew. *)
Definition missScroll (a : Obj IScroll.t) (c : Collector) :=
  (Ok (mkObj (nextRef c) (fields a)),
   set_getPublicScroll_cell (Some (a, mkObj (nextRef c) (fields a)))
     (set_nextRef (S (nextRef c)) c),
   @nil Call).

(** The outcome of [getPublicDimensions] when the copy is made anew. *)
Definition missDimensions (a : Obj IDimensions.t) (c : Collector) :=
  (Ok (mkObj (nextRef c) (fields a)),
   set_getPublicDimensions_cell (Some (a, mkObj (nextRef c) (fields a)))
     (set_nextRef (S (nextRef c)) c),
   @nil Call).

(** How a delivery [e] relates to the snapshot [p] delivered before it:
    some side did update; a side that updated differs in content, a side
    that did not is the same object. *)
Definition linked (p : IViewport) (e : IViewport * UpdateOptions) : Prop :=
  scrollDidUpdate (snd e) || dimensionsDidUpdate (snd e) = true /\
  (scrollDidUpdate (snd e) = true ->
   shallowEqualScroll (fields (scroll p)) (fields (scroll (fst e))) = false) /\
  (scrollDidUpdate (snd e) = false -> scroll (fst e) = scroll p) /\
  (dimensionsDidUpdate (snd e) = true ->
   shallowEqualDimensions (fields (dimensions p)) (fields (dimensions (fst e))) = false) /\
  (dimensionsDidUpdate (snd e) = false -> dimensions (fst e) = dimensions p).

(** Every delivery of [l] is [linked] to the one before it, [prev]
    being the delivery before the first. *)
Fixpoint chained (prev : option IViewport) (l : list (IViewport * UpdateOptions)) : Prop :=
  match l with
  | [] => True
  | e :: rest =>
      match prev with None => True | Some p => linked p e end /\
      chained (Some (fst e)) rest
  end.

(** The invariant of a run whose last delivery was [prev]. *)
Definition inv (prev : option IViewport) (c : Collector) : Prop :=
  wellFormed c /\ match prev with None => True | Some p => publishedAs p c end.

(** The vertical and the horizontal part of a scroll state. *)
Definition vertical (s : IScroll.t) : number * bool * bool * number * number :=
  (IScroll.y s, IScroll.isScrollingUp s, IScroll.isScrollingDown s,
   IScroll.yTurn s, IScroll.yDTurn s).

Definition horizontal (s : IScroll.t) : number * bool * bool * number * number :=
  (IScroll.x s, IScroll.isScrollingLeft s, IScroll.isScrollingRight s,
   IScroll.xTurn s, IScroll.xDTurn s).

(** The current position lies on the side of the turn the flag names. *)
Definition turnBehind (s : IScroll.t) : Prop :=
  (IScroll.isScrollingUp s = true -> IScroll.y s <= IScroll.yTurn s) /\
  (IScroll.isScrollingUp s = false -> IScroll.yTurn s <= IScroll.y s) /\
  (IScroll.isScrollingLeft s = true -> IScroll.x s <= IScroll.xTurn s) /\
  (IScroll.isScrollingLeft s = false -> IScroll.xTurn s <= IScroll.x s) /\
  IScroll.xDTurn s = IScroll.x s - IScroll.xTurn s /\
  IScroll.yDTurn s = IScroll.y s - IScroll.yTurn s.

(** The last synced copies carry the raw state. *)
Definition settled (c : Collector) : Prop :=
  fields (lastSyncedScrollState c) = scrollState c /\
  fields (lastSyncedDimensionsState c) = dimensionsState c.

(** The objects of the instance are pairwise distinct and older than the
    next reference. *)
Definition cellApart {A : Type} (n r1 r2 : nat) (cell : MemoCell (Obj A) (Obj A)) : Prop :=
  match cell with
  | None => True
  | Some (_, lastResult) =>
      (ref lastResult < n)%nat /\ ref lastResult <> r1 /\ ref lastResult <> r2
  end.

Definition cellsApart {A B : Type}
  (cellA : MemoCell (Obj A) (Obj A)) (cellB : MemoCell (Obj B) (Obj B)) : Prop :=
  match cellA, cellB with
  | Some (_, ra), Some (_, rb) => ref ra <> ref rb
  | _, _ => True
  end.

Definition separated (c : Collector) : Prop :=
  (ref (lastSyncedScrollState c) < nextRef c)%nat /\
  (ref (lastSyncedDimensionsState c) < nextRef c)%nat /\
  ref (lastSyncedScrollState c) <> ref (lastSyncedDimensionsState c) /\
  cellApart (nextRef c) (ref (lastSyncedScrollState c))
    (ref (lastSyncedDimensionsState c)) (getPublicScroll_cell c) /\
  cellApart (nextRef c) (ref (lastSyncedScrollState c))
    (ref (lastSyncedDimensionsState c)) (getPublicDimensions_cell c) /\
  cellsApart (getPublicScroll_cell c) (getPublicDimensions_cell c).

(** The objects of a snapshot are neither each other nor the last synced
    copies of the instance. *)
Definition detached (v : IViewport) (c : Collector) : Prop :=
  ref (scroll v) <> ref (lastSyncedScrollState c) /\
  ref (scroll v) <> ref (lastSyncedDimensionsState c) /\
  ref (dimensions v) <> ref (lastSyncedScrollState c) /\
  ref (dimensions v) <> ref (lastSyncedDimensionsState c) /\
  ref (scroll v) <> ref (dimensions v).

(** A callback of this collector. *)
Definition own (cb : Page.Callback) : bool :=
  match cb with
  | Page.foreign _ => false
  | _ => true
  end.

(** A page on which this collector has nothing registered yet. *)
Definition untouched (p : Page.t) : Prop :=
  (forall r, In r (Page.listeners p) -> own (Page.callback r) = false) /\
  (forall q, In q (Page.frameRequests p) -> own (snd q) = false) /\
  (forall q, In q (Page.frameRequests p) -> (fst q < Page.nextHandle p)%nat).

(** The three registrations of [componentDidMount]. *)
Definition ownListeners : list Page.Registration :=
  [Page.mkRegistration Page.scroll Page.handleScroll false;
   Page.mkRegistration Page.resize Page.handleResize false;
   Page.mkRegistration Page.orientationchange Page.handleResize false].

(** The frame requests of the collector that are pending. *)
Definition ownRequests (m : Mounted) : list (nat * Page.Callback) :=
  filter (fun q => own (snd q)) (Page.frameRequests (page m)).

(** One request of the collector is pending, and [tickId] holds its
    handle. *)
Definition requesting (m : Mounted) : Prop :=
  exists handle, tickId m = Some handle /\ ownRequests m = [(handle, Page.tick)].

(** The state of the page while the collector is mounted on a page whose
    foreign listeners are [foreignListeners]. *)
Definition mountedOn (foreignListeners : list Page.Registration) (m : Mounted) : Prop :=
  Page.listeners (page m) = foreignListeners ++ ownListeners /\
  (forall q, In q (Page.frameRequests (page m)) -> (fst q < Page.nextHandle (page m))%nat) /\
  (ownRequests m = [] \/ requesting m).

(** The consumer's [onUpdate] never throws. *)
Definition returns (properties : IProps) : Prop :=
  forall v o, onUpdate properties v o = Ok tt.

(** A page with a foreign listener and a foreign frame request. *)
Definition busyPage : Page.t :=
  Page.mk [Page.mkRegistration Page.scroll (Page.foreign 0) false]
          [(0%nat, Page.foreign 1)] 1.

(** ** The direction tests *)

Lemma isScrollingLeft_nextDirection x prev :
  isScrollingLeft x prev =
  Ok (nextDirection x (IScroll.x prev) (IScroll.isScrollingLeft prev)).
Proof.
  unfold isScrollingLeft, nextDirection.
  destruct (Z.ltb_spec x (IScroll.x prev)) as [Hlt | Hge]; [reflexivity |].
  destruct (Z.gtb_spec x (IScroll.x prev)) as [Hgt | Hle]; [reflexivity |].
  destruct (Z.eqb_spec x (IScroll.x prev)) as [Heq | Hne]; [reflexivity | lia].
Qed.

Lemma isScrollingUp_nextDirection y prev :
  isScrollingUp y prev =
  Ok (nextDirection y (IScroll.y prev) (IScroll.isScrollingUp prev)).
Proof.
  unfold isScrollingUp, nextDirection.
  destruct (Z.ltb_spec y (IScroll.y prev)) as [Hlt | Hge]; [reflexivity |].
  destruct (Z.gtb_spec y (IScroll.y prev)) as [Hgt | Hle]; [reflexivity |].
  destruct (Z.eqb_spec y (IScroll.y prev)) as [Heq | Hne]; [reflexivity | lia].
Qed.

Lemma exactlyOne_order (v pv : number) :
  exactlyOne (v <? pv) (v >? pv) (v =? pv).
Proof.
  unfold exactlyOne.
  destruct (Z.ltb_spec v pv), (Z.gtb_spec v pv), (Z.eqb_spec v pv);
    try lia; tauto.
Qed.

(** On window offsets the direction tests never throw: of the tests
    [<], [>], [===] against the stored offset exactly one holds. *)
Lemma direction_tests_total_on_offsets (v : number) (prev : IScroll.t) :
  exactlyOne (v <? IScroll.x prev) (v >? IScroll.x prev) (v =? IScroll.x prev) /\
  exactlyOne (v <? IScroll.y prev) (v >? IScroll.y prev) (v =? IScroll.y prev) /\
  (exists b, isScrollingLeft v prev = Ok b) /\
  (exists b, isScrollingUp v prev = Ok b).
Proof.
  repeat split; try apply exactlyOne_order.
  - eexists; apply isScrollingLeft_nextDirection.
  - eexists; apply isScrollingUp_nextDirection.
Qed.

(** *** The tests on every number *)

Lemma Qeq_bool_compare p q :
  Qeq_bool p q = match Qcompare p q with Eq => true | _ => false end.
Proof.
  destruct (Qeq_bool p q) eqn:Hb.
  - apply Qeq_bool_iff, Qeq_alt in Hb. rewrite Hb. reflexivity.
  - destruct (Qcompare p q) eqn:Hc; try reflexivity.
    apply Qeq_alt, Qeq_bool_iff in Hc. congruence.
Qed.

Lemma number_order_cases (a b : Js.number) :
  a <> Js.NaN -> b <> Js.NaN ->
  exactlyOne (Js.lt a b) (Js.gt a b) (Js.strictEq a b).
Proof.
  unfold exactlyOne, Js.gt.
  destruct a as [| na | p], b as [| nb | q]; try contradiction; intros _ _; cbn.
  - destruct na, nb; cbn; tauto.
  - destruct na; tauto.
  - destruct nb; tauto.
  - rewrite Qeq_bool_compare, <- (Qcompare_antisym p q).
    destruct (Qcompare p q); cbn; tauto.
Qed.

Lemma number_nan_cases (a b : Js.number) :
  a = Js.NaN \/ b = Js.NaN ->
  Js.lt a b = false /\ Js.gt a b = false /\ Js.strictEq a b = false.
Proof.
  unfold Js.gt. intros [-> | ->]; [destruct b | destruct a]; repeat split.
Qed.

Lemma inject_Z_compare a b : Qcompare (inject_Z a) (inject_Z b) = Z.compare a b.
Proof. unfold Qcompare; cbn. rewrite !Z.mul_1_r. reflexivity. Qed.

Lemma ofOffset_lt a b : Js.lt (ofOffset a) (ofOffset b) = (a <? b).
Proof. cbn. rewrite inject_Z_compare. reflexivity. Qed.

Lemma ofOffset_gt a b : Js.gt (ofOffset a) (ofOffset b) = (a >? b).
Proof. unfold Js.gt. rewrite ofOffset_lt, Z.gtb_ltb. reflexivity. Qed.

Lemma ofOffset_strictEq a b : Js.strictEq (ofOffset a) (ofOffset b) = (a =? b).
Proof.
  cbn. rewrite Qeq_bool_compare, inject_Z_compare.
  destruct (Z.eqb_spec a b) as [-> | Hne].
  - rewrite Z.compare_refl. reflexivity.
  - destruct (Z.compare_spec a b); [contradiction | reflexivity | reflexivity].
Qed.

(** The tests on numbers, taken at window offsets, are the tests of
    [handleScroll]. *)
Lemma direction_tests_on_offsets (v : number) (prev : IScroll.t) :
  Js.isScrollingLeft (ofOffset v) (ofScroll prev) = isScrollingLeft v prev /\
  Js.isScrollingUp (ofOffset v) (ofScroll prev) = isScrollingUp v prev.
Proof.
  unfold Js.isScrollingLeft, Js.isScrollingUp, isScrollingLeft, isScrollingUp, ofScroll.
  cbn [Js.IScroll.x Js.IScroll.y Js.IScroll.isScrollingLeft Js.IScroll.isScrollingUp].
  rewrite !ofOffset_lt, !ofOffset_gt, !ofOffset_strictEq. split; reflexivity.
Qed.

(** C10, as the code has it: for every coordinate other than NaN and
    every previous scroll state whose stored coordinate is not NaN,
    exactly one of the tests [<], [>], [===] against the stored
    coordinate holds, and [isScrollingLeft] and [isScrollingUp] return a
    boolean; when the coordinate or the stored coordinate is NaN none of
    the three holds and the default branch throws. *)
Theorem direction_tests_total_without_nan (v : Js.number) (prev : Js.IScroll.t) :
  (v <> Js.NaN -> Js.IScroll.x prev <> Js.NaN ->
   exactlyOne (Js.lt v (Js.IScroll.x prev)) (Js.gt v (Js.IScroll.x prev))
     (Js.strictEq v (Js.IScroll.x prev)) /\
   exists b, Js.isScrollingLeft v prev = Ok b) /\
  (v <> Js.NaN -> Js.IScroll.y prev <> Js.NaN ->
   exactlyOne (Js.lt v (Js.IScroll.y prev)) (Js.gt v (Js.IScroll.y prev))
     (Js.strictEq v (Js.IScroll.y prev)) /\
   exists b, Js.isScrollingUp v prev = Ok b) /\
  (v = Js.NaN \/ Js.IScroll.x prev = Js.NaN ->
   Js.lt v (Js.IScroll.x prev) = false /\
   Js.gt v (Js.IScroll.x prev) = false /\
   Js.strictEq v (Js.IScroll.x prev) = false /\
   Js.isScrollingLeft v prev = Throw "Could not calculate isScrollingLeft") /\
  (v = Js.NaN \/ Js.IScroll.y prev = Js.NaN ->
   Js.lt v (Js.IScroll.y prev) = false /\
   Js.gt v (Js.IScroll.y prev) = false /\
   Js.strictEq v (Js.IScroll.y prev) = false /\
   Js.isScrollingUp v prev = Throw "Could not calculate yDir").
Proof.
  unfold Js.isScrollingLeft, Js.isScrollingUp.
  split; [| split; [| split]].
  - intros Hv Hp. pose proof (number_order_cases v _ Hv Hp) as Hone.
    split; [exact Hone |].
    destruct Hone as [(H1 & H2 & H3) | [(H1 & H2 & H3) | (H1 & H2 & H3)]];
      rewrite H1; try rewrite H2; try rewrite H3; eexists; reflexivity.
  - intros Hv Hp. pose proof (number_order_cases v _ Hv Hp) as Hone.
    split; [exact Hone |].
    destruct Hone as [(H1 & H2 & H3) | [(H1 & H2 & H3) | (H1 & H2 & H3)]];
      rewrite H1; try rewrite H2; try rewrite H3; eexists; reflexivity.
  - intros Hnan. destruct (number_nan_cases v _ Hnan) as (Hl & Hg & He).
    rewrite Hl, Hg, He. repeat split.
  - intros Hnan. destruct (number_nan_cases v _ Hnan) as (Hl & Hg & He).
    rewrite Hl, Hg, He. repeat split.
Qed.

Lemma direction_tests_total_without_nan_witness :
  (exists b,
     Js.isScrollingUp (ofOffset 30)
       (ofScroll (IScroll.mk 0 50 false true false true 0 0 0 50)) = Ok b) /\
  Js.isScrollingUp Js.NaN
    (ofScroll (IScroll.mk 0 50 false true false true 0 0 0 50)) =
    Throw "Could not calculate yDir".
Proof.
  destruct (direction_tests_total_without_nan (ofOffset 30)
              (ofScroll (IScroll.mk 0 50 false true false true 0 0 0 50)))
    as (_ & Hup & _).
  destruct (direction_tests_total_without_nan Js.NaN
              (ofScroll (IScroll.mk 0 50 false true false true 0 0 0 50)))
    as (_ & _ & _ & Hnan).
  split.
  - apply Hup; discriminate.
  - apply Hnan. left. reflexivity.
Defined.

(** C10, as the spec has it, fails: NaN is a value of the type number,
    none of the three tests holds for it, and both functions take the
    default branch and throw. *)
Lemma direction_tests_nan_counterexample :
  let prev := ofScroll createInitScrollState in
  ~ exactlyOne (Js.lt Js.NaN (Js.IScroll.x prev)) (Js.gt Js.NaN (Js.IScroll.x prev))
      (Js.strictEq Js.NaN (Js.IScroll.x prev)) /\
  Js.isScrollingLeft Js.NaN prev = Throw "Could not calculate isScrollingLeft" /\
  Js.isScrollingUp Js.NaN prev = Throw "Could not calculate yDir" /\
  ~ (exists b, Js.isScrollingLeft Js.NaN prev = Ok b) /\
  ~ (exists b, Js.isScrollingUp Js.NaN prev = Ok b).
Proof.
  cbv zeta. split; [| split; [reflexivity | split; [reflexivity | split]]].
  - unfold exactlyOne. cbn. intros [(H & _) | [(_ & H & _) | (_ & _ & H)]]; discriminate H.
  - intros (b & H). discriminate H.
  - intros (b & H). discriminate H.
Qed.

(** ** One scroll sample *)

Lemma handleScroll_run x y c :
  handleScroll x y c =
  (Ok tt,
   set_componentMightHaveUpdated true
     (set_scrollState (scrollAfter x y (scrollState c)) c),
   []).
Proof.
  unfold handleScroll, bind, gets, lift, assignScroll, modify.
  cbn [scrollState set_scrollState].
  rewrite isScrollingLeft_nextDirection.
  cbn [scrollState set_scrollState IScroll.set_isScrollingLeft
       IScroll.set_isScrollingRight IScroll.x IScroll.y
       IScroll.isScrollingUp IScroll.isScrollingLeft app].
  rewrite isScrollingUp_nextDirection.
  reflexivity.
Qed.

Lemma handleScroll_scrollState x y c c' :
  handleScroll x y c = (Ok tt, c', []) ->
  scrollState c' = scrollAfter x y (scrollState c).
Proof.
  rewrite handleScroll_run. intros H. injection H as <-. reflexivity.
Qed.

Lemma scrollAfter_sampled x y s : sampled (scrollAfter x y s).
Proof. unfold sampled, scrollAfter; cbn; auto. Qed.

Lemma sampled_exclusiveFlags s : sampled s -> exclusiveFlags s.
Proof.
  unfold sampled, exclusiveFlags. intros (Hd & Hr & _).
  rewrite Hd, Hr. split; apply andb_negb_r.
Qed.

Lemma nextDirection_same v flag : nextDirection v v flag = flag.
Proof.
  unfold nextDirection.
  rewrite Z.ltb_irrefl, Z.gtb_ltb, Z.ltb_irrefl. reflexivity.
Qed.

(** C2: one sample through [handleScroll]: a turn coordinate keeps its
    value when the new flag equals the flag before the sample and becomes
    the raw coordinate otherwise; the deltas are taken against the updated
    turns; the raw coordinates are committed. *)
Theorem handleScroll_turn_rule (x y : number) (c : Collector) :
  exists c',
    handleScroll x y c = (Ok tt, c', []) /\
    let before := scrollState c in
    let after := scrollState c' in
    IScroll.xTurn after =
      (if Bool.eqb (IScroll.isScrollingLeft after) (IScroll.isScrollingLeft before)
       then IScroll.xTurn before else x) /\
    IScroll.yTurn after =
      (if Bool.eqb (IScroll.isScrollingUp after) (IScroll.isScrollingUp before)
       then IScroll.yTurn before else y) /\
    IScroll.xDTurn after = x - IScroll.xTurn after /\
    IScroll.yDTurn after = y - IScroll.yTurn after /\
    IScroll.x after = x /\
    IScroll.y after = y.
Proof.
  eexists. split; [apply handleScroll_run |].
  cbn. repeat split.
Qed.

(** C3: when a sample flips [isScrollingLeft] (resp. [isScrollingUp]),
    the turn coordinate of that axis is the new raw coordinate and the
    delta since the turn is 0 on that sample. *)
Theorem turn_is_new_position_at_flip (x y : number) (c c' : Collector) :
  handleScroll x y c = (Ok tt, c', []) ->
  (IScroll.isScrollingLeft (scrollState c') <> IScroll.isScrollingLeft (scrollState c) ->
   IScroll.xTurn (scrollState c') = x /\ IScroll.xDTurn (scrollState c') = 0) /\
  (IScroll.isScrollingUp (scrollState c') <> IScroll.isScrollingUp (scrollState c) ->
   IScroll.yTurn (scrollState c') = y /\ IScroll.yDTurn (scrollState c') = 0).
Proof.
  intros H. rewrite (handleScroll_scrollState _ _ _ _ H).
  unfold scrollAfter; cbn. split; intros Hflip.
  - destruct (Bool.eqb_spec
      (nextDirection x (IScroll.x (scrollState c)) (IScroll.isScrollingLeft (scrollState c)))
      (IScroll.isScrollingLeft (scrollState c))) as [Heq | Hne]; [contradiction |].
    split; [reflexivity | apply Z.sub_diag].
  - destruct (Bool.eqb_spec
      (nextDirection y (IScroll.y (scrollState c)) (IScroll.isScrollingUp (scrollState c)))
      (IScroll.isScrollingUp (scrollState c))) as [Heq | Hne]; [contradiction |].
    split; [reflexivity | apply Z.sub_diag].
Qed.

Lemma turn_is_new_position_at_flip_witness :
  let c := exec (handleScroll 10 10) blankCollector in
  let c' := exec (handleScroll 5 5) c in
  (IScroll.xTurn (scrollState c') = 5 /\ IScroll.xDTurn (scrollState c') = 0) /\
  (IScroll.yTurn (scrollState c') = 5 /\ IScroll.yDTurn (scrollState c') = 0).
Proof.
  cbv zeta.
  assert (E : handleScroll 5 5 (exec (handleScroll 10 10) blankCollector) =
              (Ok tt, exec (handleScroll 5 5) (exec (handleScroll 10 10) blankCollector), []))
    by (vm_compute; reflexivity).
  destruct (turn_is_new_position_at_flip 5 5 _ _ E) as [Hx Hy].
  split; [apply Hx | apply Hy]; vm_compute; discriminate.
Defined.

(** ** Sequences of inputs *)

Lemma run_app inputs1 inputs2 c :
  run (inputs1 ++ inputs2) c =
  (fst (run inputs2 (fst (run inputs1 c))),
   snd (run inputs1 c) ++ snd (run inputs2 (fst (run inputs1 c)))).
Proof.
  revert c. induction inputs1 as [| i rest IH]; intros c; cbn [app run].
  - cbn [fst snd app]. destruct (run inputs2 c); reflexivity.
  - destruct (dispatch i c) as [[r c1] calls1].
    rewrite IH.
    destruct (run rest c1) as [c2 calls2]; cbn [fst snd].
    rewrite app_assoc. reflexivity.
Qed.

Lemma run_scroll_last samples x y c :
  scrollState (fst (run (scrollSamples (samples ++ [(x, y)])) c)) =
  scrollAfter x y (scrollState (fst (run (scrollSamples samples) c))).
Proof.
  unfold scrollSamples. rewrite map_app, run_app. cbn [map run fst snd dispatch].
  rewrite handleScroll_run. reflexivity.
Qed.

Lemma run_scroll_sampled samples c :
  samples <> [] ->
  sampled (scrollState (fst (run (scrollSamples samples) c))).
Proof.
  intros Hne. destruct (exists_last Hne) as (front & [x y] & ->).
  rewrite run_scroll_last. apply scrollAfter_sampled.
Qed.

Lemma createInitScrollState_exclusiveFlags : exclusiveFlags createInitScrollState.
Proof. split; reflexivity. Qed.

Lemma run_scroll_exclusiveFlags samples c :
  scrollState c = createInitScrollState ->
  exclusiveFlags (scrollState (fst (run (scrollSamples samples) c))).
Proof.
  intros Hinit. destruct samples as [| p rest].
  - cbn. rewrite Hinit. apply createInitScrollState_exclusiveFlags.
  - apply sampled_exclusiveFlags, run_scroll_sampled. discriminate.
Qed.

Lemma constructor_noBrowser : constructor quietProps noBrowser = Ok blankCollector.
Proof. reflexivity. Qed.

Lemma constructor_scrollState properties env c :
  constructor properties env = Ok c -> scrollState c = createInitScrollState.
Proof.
  unfold constructor. destruct (createInitDimensionsState env); [| discriminate].
  intros H; injection H as <-. reflexivity.
Qed.

(** C4: along every sequence of scroll samples from the initial scroll
    state at most one of up/down and at most one of left/right is set;
    once a sample has been processed, down is the negation of up and
    right the negation of left, so exactly one flag of each pair is set.
    The sequence is arbitrary, so this holds at each of its points. *)
Theorem direction_flags_exclusive (samples : list (number * number)) (c : Collector) :
  scrollState c = createInitScrollState ->
  let s := scrollState (fst (run (scrollSamples samples) c)) in
  IScroll.isScrollingUp s && IScroll.isScrollingDown s = false /\
  IScroll.isScrollingLeft s && IScroll.isScrollingRight s = false /\
  (samples <> [] ->
   IScroll.isScrollingDown s = negb (IScroll.isScrollingUp s) /\
   IScroll.isScrollingRight s = negb (IScroll.isScrollingLeft s) /\
   xorb (IScroll.isScrollingUp s) (IScroll.isScrollingDown s) = true /\
   xorb (IScroll.isScrollingLeft s) (IScroll.isScrollingRight s) = true).
Proof.
  intros Hinit s.
  destruct (run_scroll_exclusiveFlags samples c Hinit) as [Hud Hlr].
  split; [exact Hud |]. split; [exact Hlr |].
  intros Hne. destruct (run_scroll_sampled samples c Hne) as (Hd & Hr & _).
  fold s in Hd, Hr. rewrite Hd, Hr.
  repeat split.
  - destruct (IScroll.isScrollingUp s); reflexivity.
  - destruct (IScroll.isScrollingLeft s); reflexivity.
Qed.

Lemma direction_flags_exclusive_witness :
  let s := scrollState (fst (run (scrollSamples [(0, 50); (0, 30)]) blankCollector)) in
  IScroll.isScrollingUp s && IScroll.isScrollingDown s = false /\
  IScroll.isScrollingLeft s && IScroll.isScrollingRight s = false /\
  xorb (IScroll.isScrollingUp s) (IScroll.isScrollingDown s) = true /\
  xorb (IScroll.isScrollingLeft s) (IScroll.isScrollingRight s) = true.
Proof.
  destruct (direction_flags_exclusive [(0, 50); (0, 30)] blankCollector eq_refl)
    as (Hud & Hlr & Hone).
  destruct Hone as (_ & _ & Hx1 & Hx2); [discriminate |].
  repeat split; assumption.
Defined.

(** ** The scenarios of the spec *)

(** C7: at construction the scroll state is x = y = 0 with the four
    flags false and turns and deltas 0; the first sample (0, 50) gives
    isScrollingUp = false, yTurn = 0, yDTurn = 50. *)
Theorem first_sample_scrolls_down (properties : IProps) (env : Dom.Env) (c : Collector) :
  constructor properties env = Ok c ->
  scrollState c = IScroll.mk 0 0 false false false false 0 0 0 0 /\
  exists c',
    handleScroll 0 50 c = (Ok tt, c', []) /\
    IScroll.isScrollingUp (scrollState c') = false /\
    IScroll.yTurn (scrollState c') = 0 /\
    IScroll.yDTurn (scrollState c') = 50.
Proof.
  intros Hc. pose proof (constructor_scrollState properties env c Hc) as Hs.
  split; [exact Hs |].
  eexists. split; [apply handleScroll_run |].
  cbn [scrollState set_scrollState set_componentMightHaveUpdated].
  rewrite Hs. repeat split.
Qed.

Lemma first_sample_scrolls_down_witness :
  exists c c',
    constructor quietProps desktop = Ok c /\
    handleScroll 0 50 c = (Ok tt, c', []) /\
    IScroll.isScrollingUp (scrollState c') = false /\
    IScroll.yTurn (scrollState c') = 0 /\
    IScroll.yDTurn (scrollState c') = 50.
Proof.
  eexists.
  assert (Hc : constructor quietProps desktop = Ok _) by (vm_compute; reflexivity).
  destruct (first_sample_scrolls_down quietProps desktop _ Hc) as (_ & c' & Hrun & Hrest).
  exists c'. split; [exact Hc |]. split; [exact Hrun | exact Hrest].
Defined.

(** C1, as the code has it: after scroll samples that end at y = 50
    while scrolling down, the sample y = 30 gives isScrollingUp = true,
    yTurn = 30 (the new position) and yDTurn = 0. *)
Theorem turn_after_reversal_at_50
  (samples : list (number * number)) (x : number) (c0 : Collector) :
  scrollState c0 = createInitScrollState ->
  let c := fst (run (scrollSamples samples) c0) in
  IScroll.y (scrollState c) = 50 ->
  IScroll.isScrollingDown (scrollState c) = true ->
  exists c',
    handleScroll x 30 c = (Ok tt, c', []) /\
    IScroll.isScrollingUp (scrollState c') = true /\
    IScroll.yTurn (scrollState c') = 30 /\
    IScroll.yDTurn (scrollState c') = 0.
Proof.
  intros Hinit c Hy Hdown.
  destruct (run_scroll_exclusiveFlags samples c0 Hinit) as [Hud _].
  fold c in Hud. rewrite Hdown, andb_true_r in Hud.
  eexists. split; [apply handleScroll_run |].
  cbn [scrollState set_scrollState set_componentMightHaveUpdated].
  unfold scrollAfter. cbn [IScroll.isScrollingUp IScroll.yTurn IScroll.yDTurn].
  rewrite Hy, Hud. repeat split.
Qed.

Lemma turn_after_reversal_at_50_witness :
  exists c',
    handleScroll 0 30 (fst (run (scrollSamples [(0, 50)]) blankCollector)) =
      (Ok tt, c', []) /\
    IScroll.isScrollingUp (scrollState c') = true /\
    IScroll.yTurn (scrollState c') = 30 /\
    IScroll.yDTurn (scrollState c') = 0.
Proof.
  apply (turn_after_reversal_at_50 [(0, 50)] 0 blankCollector);
    vm_compute; reflexivity.
Defined.

(** C1, as the spec has it, fails: from the constructed collector the
    sample (0, 50) commits y = 50 scrolling down, and the sample (0, 30)
    then leaves yTurn = 30 and yDTurn = 0, not 50 and -20. *)
Lemma turn_after_reversal_counterexample :
  let c := fst (run (scrollSamples [(0, 50)]) blankCollector) in
  let c' := exec (handleScroll 0 30) c in
  constructor quietProps noBrowser = Ok blankCollector /\
  IScroll.y (scrollState c) = 50 /\
  IScroll.isScrollingDown (scrollState c) = true /\
  handleScroll 0 30 c = (Ok tt, c', []) /\
  IScroll.yTurn (scrollState c') = 30 /\
  IScroll.yDTurn (scrollState c') = 0 /\
  ~ (IScroll.isScrollingUp (scrollState c') = true /\
     IScroll.yTurn (scrollState c') = 50 /\
     IScroll.yDTurn (scrollState c') = -20).
Proof.
  cbv zeta.
  split; [reflexivity |].
  split; [vm_compute; reflexivity |].
  split; [vm_compute; reflexivity |].
  split; [vm_compute; reflexivity |].
  split; [vm_compute; reflexivity |].
  split; [vm_compute; reflexivity |].
  intros (_ & Hturn & _). vm_compute in Hturn. discriminate.
Qed.

Lemma scrollAfter_same s :
  sampled s -> scrollAfter (IScroll.x s) (IScroll.y s) s = s.
Proof.
  intros (Hd & Hr & Hx & Hy). unfold scrollAfter.
  rewrite !nextDirection_same, !Bool.eqb_reflx, <- Hd, <- Hr, <- Hx, <- Hy.
  destruct s; reflexivity.
Qed.

(** C6: in a scroll state reached by at least one sample, a further
    sample at the stored x and y leaves the four direction flags, both
    turn coordinates and both deltas as they are. *)
Theorem repeated_position_keeps_direction
  (samples : list (number * number)) (x0 y0 : number) (c0 : Collector) :
  let c := fst (run (scrollSamples (samples ++ [(x0, y0)])) c0) in
  let s := scrollState c in
  exists c',
    handleScroll (IScroll.x s) (IScroll.y s) c = (Ok tt, c', []) /\
    IScroll.isScrollingUp (scrollState c') = IScroll.isScrollingUp s /\
    IScroll.isScrollingDown (scrollState c') = IScroll.isScrollingDown s /\
    IScroll.isScrollingLeft (scrollState c') = IScroll.isScrollingLeft s /\
    IScroll.isScrollingRight (scrollState c') = IScroll.isScrollingRight s /\
    IScroll.xTurn (scrollState c') = IScroll.xTurn s /\
    IScroll.yTurn (scrollState c') = IScroll.yTurn s /\
    IScroll.xDTurn (scrollState c') = IScroll.xDTurn s /\
    IScroll.yDTurn (scrollState c') = IScroll.yDTurn s.
Proof.
  intros c s.
  assert (Hs : sampled s).
  { subst s c. rewrite run_scroll_last. apply scrollAfter_sampled. }
  eexists. split; [apply handleScroll_run |].
  cbn [scrollState set_scrollState set_componentMightHaveUpdated].
  fold s. rewrite (scrollAfter_same s Hs). repeat split.
Qed.

(** ** Dimension sampling without a browser *)

(** Where the guards hold: a missing window stops
    [createInitDimensionsState] before the geometry read, and a declared
    document without an object or without a root element stops
    [getClientDimensions]; both then return the state with all eight
    fields 0. *)
Lemma dimensions_zero_when_guarded (env : Dom.Env) :
  createEmptyDimensionState = IDimensions.mk 0 0 0 0 0 0 0 0 /\
  (Dom.window env = Dom.undeclared \/ Dom.window env = Dom.declared None ->
   createInitDimensionsState env = Ok createEmptyDimensionState) /\
  (Dom.document env = Dom.declared None \/
   (exists doc, Dom.document env = Dom.declared (Some doc) /\
                Dom.documentElement doc = None) ->
   getClientDimensions env = Ok createEmptyDimensionState /\
   createInitDimensionsState env = Ok createEmptyDimensionState).
Proof.
  split; [reflexivity |]. split.
  - intros [Hw | Hw]; unfold createInitDimensionsState; rewrite Hw; reflexivity.
  - intros Hdoc.
    assert (Hg : getClientDimensions env = Ok createEmptyDimensionState).
    { unfold getClientDimensions.
      destruct Hdoc as [Hd | (doc & Hd & Hel)]; rewrite Hd; [| rewrite Hel];
        reflexivity. }
    split; [exact Hg |].
    unfold createInitDimensionsState.
    destruct (Dom.window env) as [| [w |]]; [reflexivity | exact Hg | reflexivity].
Qed.

(** C9, at the input where the code departs from it: where [document]
    is not declared, [getClientDimensions] does not return the zero state
    but throws a ReferenceError at its guard, in plain Node as in a host
    that defines only [window]; in the latter the [typeof window] test
    passes and the error leaves [createInitDimensionsState] and the
    constructor's geometry read.  Without a window
    [createInitDimensionsState] does return the zero state. *)
Theorem undeclared_document_throws :
  getClientDimensions noBrowser = Throw "ReferenceError: document is not defined" /\
  getClientDimensions windowOnly = Throw "ReferenceError: document is not defined" /\
  createInitDimensionsState windowOnly =
    Throw "ReferenceError: document is not defined" /\
  createInitDimensionsState noBrowser = Ok (IDimensions.mk 0 0 0 0 0 0 0 0).
Proof. repeat split. Qed.

(** ** Memoised copies and publication *)

Lemma shallowEqualScroll_eq a b : shallowEqualScroll a b = true <-> a = b.
Proof.
  unfold shallowEqualScroll. split.
  - intros H. repeat (apply andb_prop in H; destruct H as [H ?]).
    repeat match goal with
           | E : (_ =? _) = true |- _ => apply Z.eqb_eq in E
           | E : Bool.eqb _ _ = true |- _ => apply Bool.eqb_prop in E
           end.
    destruct a, b; cbn in *; congruence.
  - intros ->. rewrite !Z.eqb_refl, !Bool.eqb_reflx. reflexivity.
Qed.

Lemma shallowEqualDimensions_eq a b : shallowEqualDimensions a b = true <-> a = b.
Proof.
  unfold shallowEqualDimensions. split.
  - intros H. repeat (apply andb_prop in H; destruct H as [H ?]).
    repeat match goal with
           | E : (_ =? _) = true |- _ => apply Z.eqb_eq in E
           end.
    destruct a, b; cbn in *; congruence.
  - intros ->. rewrite !Z.eqb_refl. reflexivity.
Qed.

Lemma getPublicScroll_run a c :
  getPublicScroll a c =
  match getPublicScroll_cell c with
  | Some (lastArg, lastResult) =>
      if shallowEqualScroll (fields a) (fields lastArg)
      then (Ok lastResult, c, [])
      else missScroll a c
  | None => missScroll a c
  end.
Proof.
  unfold getPublicScroll, memoize, spread, bind, gets, modify, ret, missScroll.
  destruct (getPublicScroll_cell c) as [[la lr] |]; cbn; [| reflexivity].
  destruct (shallowEqualScroll (fields a) (fields la)); reflexivity.
Qed.

Lemma getPublicDimensions_run a c :
  getPublicDimensions a c =
  match getPublicDimensions_cell c with
  | Some (lastArg, lastResult) =>
      if shallowEqualDimensions (fields a) (fields lastArg)
      then (Ok lastResult, c, [])
      else missDimensions a c
  | None => missDimensions a c
  end.
Proof.
  unfold getPublicDimensions, memoize, spread, bind, gets, modify, ret, missDimensions.
  destruct (getPublicDimensions_cell c) as [[la lr] |]; cbn; [| reflexivity].
  destruct (shallowEqualDimensions (fields a) (fields la)); reflexivity.
Qed.

Lemma shallowEqualScroll_neq a b : shallowEqualScroll a b = false <-> a <> b.
Proof. rewrite <- shallowEqualScroll_eq. symmetry. apply not_true_iff_false. Qed.

Lemma shallowEqualDimensions_neq a b : shallowEqualDimensions a b = false <-> a <> b.
Proof. rewrite <- shallowEqualDimensions_eq. symmetry. apply not_true_iff_false. Qed.

Ltac eq_facts :=
  repeat match goal with
         | E : shallowEqualScroll _ _ = true |- _ => apply shallowEqualScroll_eq in E
         | E : shallowEqualDimensions _ _ = true |- _ => apply shallowEqualDimensions_eq in E
         | E : shallowEqualScroll _ _ = false |- _ => apply shallowEqualScroll_neq in E
         | E : shallowEqualDimensions _ _ = false |- _ => apply shallowEqualDimensions_neq in E
         end.

Ltac unfold_methods :=
  unfold tick, syncState, getPropsFromState, getPublicScroll, getPublicDimensions,
    memoize, spread, when, bind, gets, modify, call, callOnUpdate, ret, lift in *.

Ltac split_tests :=
  repeat match goal with
         | |- context [if ?b then _ else _] => destruct b eqn:?; cbn
         end.

Ltac split_all := repeat match goal with |- _ /\ _ => split end.

(** The two outcomes of each call of the consumer in the goal. *)
Ltac split_consumer :=
  repeat match goal with
         | |- context [onUpdate ?p ?v ?o] =>
             destruct (onUpdate p v o) as [[] | ?] eqn:?; cbn
         end.

Ltac published_inv :=
  repeat match goal with
         | H : publishedAs ?p _ |- _ =>
             destruct p; destruct H as [(? & ? & ?) (? & ? & ?)]; cbn in *
         end.

Lemma getPropsFromState_spec c :
  wellFormed c ->
  exists v c',
    getPropsFromState c = (Ok v, c', []) /\
    wellFormed c' /\
    scrollState c' = scrollState c /\
    dimensionsState c' = dimensionsState c /\
    lastSyncedScrollState c' = lastSyncedScrollState c /\
    lastSyncedDimensionsState c' = lastSyncedDimensionsState c /\
    componentMightHaveUpdated c' = componentMightHaveUpdated c /\
    publishedAs v c' /\
    (forall p, publishedAs p c -> v = p /\ c' = c).
Proof.
  destruct c as [ss ds ls ld dirty sc dc n pr].
  unfold wellFormed; cbn. intros (Hsc & Hdc & Hsb & Hdb).
  unfold_methods. cbn.
  destruct sc as [[sa sr] |], dc as [[da dr] |]; cbn in *; split_tests;
    do 2 eexists; (split; [reflexivity |]); eq_facts; split_all;
    try reflexivity; try (intros p Hp; published_inv; split);
    unfold wellFormed, publishedAs; cbn; split_all; eauto; try lia; try congruence.
Qed.

Lemma tick_spec c :
  wellFormed c ->
  let sd := negb (shallowEqualScroll (fields (lastSyncedScrollState c)) (scrollState c)) in
  let dd := negb (shallowEqualDimensions (fields (lastSyncedDimensionsState c))
                    (dimensionsState c)) in
  exists r c' cs,
    tick c = (r, c', cs) /\
    wellFormed c' /\
    scrollState c' = scrollState c /\
    dimensionsState c' = dimensionsState c /\
    props c' = props c /\
    if componentMightHaveUpdated c && (sd || dd) then
      exists v,
        onUpdateCalls cs = [(v, mkOptions sd dd)] /\
        publishedAs v c' /\
        fields (lastSyncedScrollState c') = scrollState c /\
        fields (lastSyncedDimensionsState c') = dimensionsState c /\
        fields (scroll v) = scrollState c /\
        fields (dimensions v) = dimensionsState c /\
        (forall p, publishedAs p c ->
                   (sd = false -> scroll v = scroll p) /\
                   (dd = false -> dimensions v = dimensions p))
    else
      cs = [] /\ (forall p, publishedAs p c -> publishedAs p c').
Proof.
  destruct c as [ss ds ls ld dirty sc dc n pr].
  unfold wellFormed; cbn. intros (Hsc & Hdc & Hsb & Hdb).
  unfold_methods. cbn.
  destruct dirty; cbn;
    [ destruct (shallowEqualScroll (fields ls) ss) eqn:Es;
      destruct (shallowEqualDimensions (fields ld) ds) eqn:Ed; cbn;
      destruct sc as [[sa sr] |], dc as [[da dr] |]; cbn in *; split_tests;
      split_consumer | ];
    do 3 eexists; (split; [reflexivity |]); eq_facts; cbn; split_all;
    try reflexivity; try (eexists; split; [reflexivity |]); split_all;
    try (intros p Hp; published_inv; split_all; intros Hf; try discriminate Hf);
    unfold wellFormed, publishedAs; cbn; split_all; eauto; try lia; try congruence.
Qed.

Lemma onUpdateCalls_app cs1 cs2 :
  onUpdateCalls (cs1 ++ cs2) = onUpdateCalls cs1 ++ onUpdateCalls cs2.
Proof.
  induction cs1 as [| [v o | v o] rest IH]; cbn; [reflexivity | f_equal |]; exact IH.
Qed.

Lemma publishedAs_fields p c :
  wellFormed c -> publishedAs p c ->
  fields (scroll p) = fields (lastSyncedScrollState c) /\
  fields (dimensions p) = fields (lastSyncedDimensionsState c).
Proof.
  intros (Hsc & Hdc & _) [(a & Ha & Hfa) (b & Hb & Hfb)].
  rewrite Ha in Hsc. rewrite Hb in Hdc. cbn in Hsc, Hdc. split; congruence.
Qed.

Lemma publishedAs_frame p c c' :
  getPublicScroll_cell c' = getPublicScroll_cell c ->
  getPublicDimensions_cell c' = getPublicDimensions_cell c ->
  lastSyncedScrollState c' = lastSyncedScrollState c ->
  lastSyncedDimensionsState c' = lastSyncedDimensionsState c ->
  publishedAs p c -> publishedAs p c'.
Proof. unfold publishedAs. intros -> -> -> ->. exact (fun H => H). Qed.

Lemma wellFormed_frame c c' :
  getPublicScroll_cell c' = getPublicScroll_cell c ->
  getPublicDimensions_cell c' = getPublicDimensions_cell c ->
  nextRef c' = nextRef c ->
  wellFormed c -> wellFormed c'.
Proof. unfold wellFormed. intros -> -> ->. exact (fun H => H). Qed.

Lemma inv_frame prev c c' :
  getPublicScroll_cell c' = getPublicScroll_cell c ->
  getPublicDimensions_cell c' = getPublicDimensions_cell c ->
  lastSyncedScrollState c' = lastSyncedScrollState c ->
  lastSyncedDimensionsState c' = lastSyncedDimensionsState c ->
  nextRef c' = nextRef c ->
  inv prev c -> inv prev c'.
Proof.
  intros Hs Hd Hls Hld Hn [Hwf Hp]. split.
  - apply (wellFormed_frame c); assumption.
  - destruct prev as [p |]; [| exact I].
    apply (publishedAs_frame p c); assumption.
Qed.

Lemma handleResize_run env c :
  handleResize env c =
  match getClientDimensions env with
  | Ok d => (Ok tt, set_componentMightHaveUpdated true (set_dimensionsState d c), [])
  | Throw msg => (Throw msg, c, [])
  end.
Proof.
  unfold handleResize, bind, lift, modify.
  destruct (getClientDimensions env); reflexivity.
Qed.

(** The effect of one input on the invariant and on the deliveries. *)
Lemma dispatch_step i prev c :
  inv prev c ->
  exists r c1 cs,
    dispatch i c = (r, c1, cs) /\
    ((onUpdateCalls cs = [] /\ inv prev c1) \/
     (exists v o,
        onUpdateCalls cs = [(v, o)] /\ inv (Some v) c1 /\
        match prev with None => True | Some p => linked p (v, o) end)).
Proof.
  intros Hinv. destruct i as [x y | env | |]; cbn [dispatch].
  - rewrite handleScroll_run. do 3 eexists. split; [reflexivity |]. left.
    split; [reflexivity |]. revert Hinv. apply inv_frame; reflexivity.
  - rewrite handleResize_run.
    destruct (getClientDimensions env); do 3 eexists; (split; [reflexivity |]);
      left; (split; [reflexivity |]); [| exact Hinv].
    revert Hinv. apply inv_frame; reflexivity.
  - destruct Hinv as [Hwf Hp].
    destruct (tick_spec c Hwf) as (r & c' & cs & Hrun & Hwf' & _ & _ & _ & Hcase).
    do 3 eexists. split; [exact Hrun |].
    destruct (componentMightHaveUpdated c &&
              (negb (shallowEqualScroll (fields (lastSyncedScrollState c)) (scrollState c))
               || negb (shallowEqualDimensions (fields (lastSyncedDimensionsState c))
                          (dimensionsState c)))) eqn:Hgate.
    + destruct Hcase as (v & -> & Hpub & _ & _ & Hvs & Hvd & Hkeep).
      right. do 2 eexists. split; [reflexivity |]. split; [split; assumption |].
      destruct prev as [p |]; [| exact I].
      destruct (publishedAs_fields p c Hwf Hp) as [Hps Hpd].
      destruct (Hkeep p Hp) as [Hks Hkd].
      apply andb_prop in Hgate. destruct Hgate as [_ Hgate].
      unfold linked; cbn [fst snd scrollDidUpdate dimensionsDidUpdate].
      rewrite Hps, Hpd, Hvs, Hvd.
      split; [exact Hgate |].
      split; [apply negb_true_iff |]. split; [exact Hks |].
      split; [apply negb_true_iff | exact Hkd].
    + destruct Hcase as [-> Hkeep]. left. split; [reflexivity |].
      split; [exact Hwf' |]. destruct prev as [p |]; [| exact I]. apply Hkeep, Hp.
  - destruct Hinv as [Hwf Hp].
    destruct (getPropsFromState_spec c Hwf)
      as (v & c' & Hrun & Hwf' & _ & _ & _ & _ & _ & _ & Hsame).
    unfold bind. rewrite Hrun. do 3 eexists. split; [reflexivity |]. left.
    split; [reflexivity |]. split; [exact Hwf' |].
    destruct prev as [p |]; [| exact I].
    destruct (Hsame p Hp) as [_ ->]. exact Hp.
Qed.

Lemma run_chained inputs prev c :
  inv prev c ->
  chained prev (onUpdateCalls (snd (run inputs c))) /\
  wellFormed (fst (run inputs c)).
Proof.
  revert prev c. induction inputs as [| i rest IH]; intros prev c Hinv.
  - cbn. split; [exact I | apply Hinv].
  - cbn [run].
    destruct (dispatch_step i prev c Hinv) as (r & c1 & cs & -> & Hstep).
    destruct (run rest c1) as [c2 cs2] eqn:Hrest. cbn [fst snd].
    rewrite onUpdateCalls_app.
    destruct Hstep as [[-> Hinv1] | (v & o & -> & Hinv1 & Hlink)].
    + specialize (IH prev c1 Hinv1). rewrite Hrest in IH. exact IH.
    + specialize (IH (Some v) c1 Hinv1). rewrite Hrest in IH.
      cbn [app chained fst]. destruct IH as [IHc IHw].
      split; [split; assumption | exact IHw].
Qed.

Lemma chained_adjacent prev before e1 e2 after :
  chained prev (before ++ e1 :: e2 :: after) -> linked (fst e1) e2.
Proof.
  revert prev. induction before as [| e rest IH]; intros prev; cbn.
  - intros (_ & Hlink & _). exact Hlink.
  - intros (_ & Hrest). exact (IH _ Hrest).
Qed.

Lemma constructor_inv properties env c : constructor properties env = Ok c -> inv None c.
Proof.
  unfold constructor. destruct (createInitDimensionsState env); [| discriminate].
  intros H; injection H as <-. repeat split.
Qed.

Lemma linked_differs p e : linked p e -> shallowEqualViewport p (fst e) = false.
Proof.
  intros (Hany & Hs & _ & Hd & _). unfold shallowEqualViewport.
  apply orb_prop in Hany. destruct Hany as [H | H].
  - rewrite (Hs H). reflexivity.
  - rewrite (Hd H). apply andb_false_r.
Qed.

Lemma linked_keeps p e :
  linked p e ->
  (shallowEqualScroll (fields (scroll p)) (fields (scroll (fst e))) = true ->
   scroll (fst e) = scroll p) /\
  (shallowEqualDimensions (fields (dimensions p)) (fields (dimensions (fst e))) = true ->
   dimensions (fst e) = dimensions p).
Proof.
  intros (_ & Hs & Hks & Hd & Hkd). split; intros Heq.
  - destruct (scrollDidUpdate (snd e)); [| apply Hks; reflexivity].
    rewrite Hs in Heq by reflexivity. discriminate.
  - destruct (dimensionsDidUpdate (snd e)); [| apply Hkd; reflexivity].
    rewrite Hd in Heq by reflexivity. discriminate.
Qed.

Lemma getPublicScroll_twice c a1 a2 :
  wellFormed c ->
  exists r1 c1 r2 c2,
    getPublicScroll a1 c = (Ok r1, c1, []) /\
    getPublicScroll a2 c1 = (Ok r2, c2, []) /\
    (shallowEqualScroll (fields a2) (fields a1) = true ->
     r2 = r1 /\ nextRef c2 = nextRef c1) /\
    (shallowEqualScroll (fields a2) (fields a1) = false ->
     ref r2 = nextRef c1 /\ ref r2 <> ref r1 /\ fields r2 = fields a2 /\
     nextRef c2 = S (nextRef c1)).
Proof.
  intros (_ & _ & Hb & _).
  set (c1 := exec (getPublicScroll a1) c).
  cut (exists r1 r2,
         getPublicScroll a1 c = (Ok r1, c1, []) /\
         getPublicScroll a2 c1 = (Ok r2, exec (getPublicScroll a2) c1, []) /\
         (shallowEqualScroll (fields a2) (fields a1) = true ->
          r2 = r1 /\ nextRef (exec (getPublicScroll a2) c1) = nextRef c1) /\
         (shallowEqualScroll (fields a2) (fields a1) = false ->
          ref r2 = nextRef c1 /\ ref r2 <> ref r1 /\ fields r2 = fields a2 /\
          nextRef (exec (getPublicScroll a2) c1) = S (nextRef c1))).
  { intros (r1 & r2 & H). exists r1, c1, r2, (exec (getPublicScroll a2) c1). exact H. }
  subst c1. unfold exec.
  destruct c as [ss ds ls ld dirty sc dc n pr]. cbn in Hb.
  unfold_methods. cbn.
  destruct sc as [[ca cr] |]; cbn in Hb |- *; split_tests;
    do 2 eexists; (split; [reflexivity |]); (split; [reflexivity |]);
    eq_facts; cbn; split; intros E; eq_facts;
    try congruence; split_all; try reflexivity; try lia.
Qed.

Lemma getPublicDimensions_twice c a1 a2 :
  wellFormed c ->
  exists r1 c1 r2 c2,
    getPublicDimensions a1 c = (Ok r1, c1, []) /\
    getPublicDimensions a2 c1 = (Ok r2, c2, []) /\
    (shallowEqualDimensions (fields a2) (fields a1) = true ->
     r2 = r1 /\ nextRef c2 = nextRef c1) /\
    (shallowEqualDimensions (fields a2) (fields a1) = false ->
     ref r2 = nextRef c1 /\ ref r2 <> ref r1 /\ fields r2 = fields a2 /\
     nextRef c2 = S (nextRef c1)).
Proof.
  intros (_ & _ & _ & Hb).
  set (c1 := exec (getPublicDimensions a1) c).
  cut (exists r1 r2,
         getPublicDimensions a1 c = (Ok r1, c1, []) /\
         getPublicDimensions a2 c1 = (Ok r2, exec (getPublicDimensions a2) c1, []) /\
         (shallowEqualDimensions (fields a2) (fields a1) = true ->
          r2 = r1 /\ nextRef (exec (getPublicDimensions a2) c1) = nextRef c1) /\
         (shallowEqualDimensions (fields a2) (fields a1) = false ->
          ref r2 = nextRef c1 /\ ref r2 <> ref r1 /\ fields r2 = fields a2 /\
          nextRef (exec (getPublicDimensions a2) c1) = S (nextRef c1))).
  { intros (r1 & r2 & H). exists r1, c1, r2, (exec (getPublicDimensions a2) c1). exact H. }
  subst c1. unfold exec.
  destruct c as [ss ds ls ld dirty sc dc n pr]. cbn in Hb.
  unfold_methods. cbn.
  destruct dc as [[ca cr] |]; cbn in Hb |- *; split_tests;
    do 2 eexists; (split; [reflexivity |]); (split; [reflexivity |]);
    eq_facts; cbn; split; intros E; eq_facts;
    try congruence; split_all; try reflexivity; try lia.
Qed.

(** C5: in a state the collector can reach, a frame calls [onUpdate] if
    and only if the dirty flag is set and the raw scroll state or the raw
    dimension state differs from its last synced copy under shallow
    comparison; it calls it at most once per frame; when it does, each
    side that changed has been replaced by a copy of the raw state and
    the snapshot passed carries the fields of the last synced copies; and
    along a run no snapshot passed to [onUpdate] is shallow-equal on both
    sides to the one passed before it. *)
Theorem immediate_update_gate (properties : IProps) (env : Dom.Env) (c0 : Collector) (inputs : list Input) :
  constructor properties env = Ok c0 ->
  let c := fst (run inputs c0) in
  let scrollChanged :=
    negb (shallowEqualScroll (fields (lastSyncedScrollState c)) (scrollState c)) in
  let dimensionsChanged :=
    negb (shallowEqualDimensions (fields (lastSyncedDimensionsState c))
            (dimensionsState c)) in
  let delivered := onUpdateCalls (calls tick c) in
  let c' := exec tick c in
  (delivered <> [] <->
   componentMightHaveUpdated c = true /\
   (scrollChanged = true \/ dimensionsChanged = true)) /\
  (List.length delivered <= 1)%nat /\
  (forall v o,
     In (v, o) delivered ->
     o = mkOptions scrollChanged dimensionsChanged /\
     (scrollChanged = true ->
      fields (lastSyncedScrollState c') = scrollState c) /\
     (dimensionsChanged = true ->
      fields (lastSyncedDimensionsState c') = dimensionsState c) /\
     fields (scroll v) = fields (lastSyncedScrollState c') /\
     fields (dimensions v) = fields (lastSyncedDimensionsState c')) /\
  (forall before v1 o1 v2 o2 after,
     onUpdateCalls (snd (run inputs c0)) = before ++ (v1, o1) :: (v2, o2) :: after ->
     shallowEqualViewport v1 v2 = false).
Proof.
  intros Hc c scrollChanged dimensionsChanged delivered c'.
  pose proof (constructor_inv properties env c0 Hc) as Hinv.
  destruct (run_chained inputs None c0 Hinv) as [Hchain Hwf]. fold c in Hwf.
  destruct (tick_spec c Hwf) as (r & c1 & cs & Hrun & _ & _ & _ & _ & Hcase).
  fold scrollChanged dimensionsChanged in Hcase.
  assert (Hc' : c' = c1) by (unfold c', exec; rewrite Hrun; reflexivity).
  assert (Hd : delivered = onUpdateCalls cs)
    by (unfold delivered, calls; rewrite Hrun; reflexivity).
  rewrite Hc', Hd. clear Hc' Hd.
  split; [| split; [| split]].
  - destruct (componentMightHaveUpdated c); cbn [andb] in Hcase.
    + destruct scrollChanged, dimensionsChanged; cbn [orb] in Hcase;
        try (destruct Hcase as (v & -> & _);
             split; [intros _; split; [reflexivity | tauto] | discriminate]).
      destruct Hcase as [-> _]. cbn. split; [congruence |].
      intros (_ & [H | H]); discriminate H.
    + destruct Hcase as [-> _]. cbn. split; [congruence |].
      intros (H & _); discriminate H.
  - destruct (componentMightHaveUpdated c && (scrollChanged || dimensionsChanged)).
    + destruct Hcase as (v & -> & _). cbn. lia.
    + destruct Hcase as [-> _]. cbn. lia.
  - intros v o Hin.
    destruct (componentMightHaveUpdated c && (scrollChanged || dimensionsChanged)).
    + destruct Hcase as (v1 & Hcs & _ & Hls & Hld & Hvs & Hvd & _).
      rewrite Hcs in Hin.
      cbn in Hin. destruct Hin as [Hin | []]. injection Hin as <- <-.
      rewrite Hls, Hld. repeat split; assumption.
    + destruct Hcase as [-> _]. destruct Hin.
  - intros before v1 o1 v2 o2 after Hlog. rewrite Hlog in Hchain.
    apply chained_adjacent in Hchain. exact (linked_differs _ _ Hchain).
Qed.

Lemma immediate_update_gate_witness :
  let c := fst (run [ScrollEvent 0 50; AnimationFrame; ScrollEvent 0 30] blankCollector) in
  onUpdateCalls (calls tick c) <> [] /\
  (List.length (onUpdateCalls (calls tick c)) <= 1)%nat.
Proof.
  cbv zeta.
  pose proof (immediate_update_gate quietProps noBrowser blankCollector
                [ScrollEvent 0 50; AnimationFrame; ScrollEvent 0 30] eq_refl) as H.
  cbv zeta in H. destruct H as (Hiff & Hlen & _).
  split; [| exact Hlen].
  apply Hiff. split; [vm_compute; reflexivity | left; vm_compute; reflexivity].
Defined.

(** C8: of two successive calls of [getPublicScroll] in a reachable
    state, the second returns the very object the first returned, without
    making a copy, when its argument is shallow-equal to the first
    argument, and otherwise returns a new object, a copy of its argument;
    the same holds for [getPublicDimensions]; and of two successive
    snapshots passed to [onUpdate], a side whose content is unchanged, or
    whose update flag is false, is the same object in both. *)
Theorem public_copies_memoized
  (properties : IProps) (env : Dom.Env) (c0 : Collector) (inputs : list Input)
  (s1 s2 : Obj IScroll.t) (d1 d2 : Obj IDimensions.t) :
  constructor properties env = Ok c0 ->
  let c := fst (run inputs c0) in
  (exists r1 c1 r2 c2,
     getPublicScroll s1 c = (Ok r1, c1, []) /\
     getPublicScroll s2 c1 = (Ok r2, c2, []) /\
     (shallowEqualScroll (fields s2) (fields s1) = true ->
      r2 = r1 /\ nextRef c2 = nextRef c1) /\
     (shallowEqualScroll (fields s2) (fields s1) = false ->
      ref r2 = nextRef c1 /\ ref r2 <> ref r1 /\ fields r2 = fields s2 /\
      nextRef c2 = S (nextRef c1))) /\
  (exists r1 c1 r2 c2,
     getPublicDimensions d1 c = (Ok r1, c1, []) /\
     getPublicDimensions d2 c1 = (Ok r2, c2, []) /\
     (shallowEqualDimensions (fields d2) (fields d1) = true ->
      r2 = r1 /\ nextRef c2 = nextRef c1) /\
     (shallowEqualDimensions (fields d2) (fields d1) = false ->
      ref r2 = nextRef c1 /\ ref r2 <> ref r1 /\ fields r2 = fields d2 /\
      nextRef c2 = S (nextRef c1))) /\
  (forall before v1 o1 v2 o2 after,
     onUpdateCalls (snd (run inputs c0)) = before ++ (v1, o1) :: (v2, o2) :: after ->
     (scrollDidUpdate o2 = false -> scroll v2 = scroll v1) /\
     (dimensionsDidUpdate o2 = false -> dimensions v2 = dimensions v1) /\
     (shallowEqualScroll (fields (scroll v1)) (fields (scroll v2)) = true ->
      scroll v2 = scroll v1) /\
     (shallowEqualDimensions (fields (dimensions v1)) (fields (dimensions v2)) = true ->
      dimensions v2 = dimensions v1)).
Proof.
  intros Hc c.
  pose proof (constructor_inv properties env c0 Hc) as Hinv.
  destruct (run_chained inputs None c0 Hinv) as [Hchain Hwf]. fold c in Hwf.
  split; [apply getPublicScroll_twice, Hwf |].
  split; [apply getPublicDimensions_twice, Hwf |].
  intros before v1 o1 v2 o2 after Hlog. rewrite Hlog in Hchain.
  apply chained_adjacent in Hchain.
  destruct (linked_keeps _ _ Hchain) as [Hks Hkd].
  destruct Hchain as (_ & _ & Hfs & _ & Hfd).
  repeat split; assumption.
Qed.

Lemma public_copies_memoized_witness :
  exists v1 o1 v2 o2,
    onUpdateCalls
      (snd (run [ScrollEvent 0 50; AnimationFrame; ResizeEvent desktop; AnimationFrame]
              blankCollector)) = [(v1, o1); (v2, o2)] /\
    scrollDidUpdate o2 = false /\
    scroll v2 = scroll v1.
Proof.
  pose proof (public_copies_memoized quietProps noBrowser blankCollector
                [ScrollEvent 0 50; AnimationFrame; ResizeEvent desktop; AnimationFrame]
                (lastSyncedScrollState blankCollector)
                (lastSyncedScrollState blankCollector)
                (lastSyncedDimensionsState blankCollector)
                (lastSyncedDimensionsState blankCollector) eq_refl) as H.
  cbv zeta in H. destruct H as (_ & _ & Hpub).
  do 4 eexists.
  assert (Hlog :
    onUpdateCalls
      (snd (run [ScrollEvent 0 50; AnimationFrame; ResizeEvent desktop; AnimationFrame]
              blankCollector)) = [(_, _); (_, _)]) by (vm_compute; reflexivity).
  split; [exact Hlog |]. split; [reflexivity |].
  apply (proj1 (Hpub [] _ _ _ _ [] Hlog)). reflexivity.
Defined.

(** ** Dimension sampling: errors and bounds *)

(** X1: the constructor throws exactly in an environment where [window]
    holds an object while [document] is not declared: [typeof window]
    keeps the geometry read from a missing window, and with a window the
    read can only fail at its bare [document].  An instance it returns
    has the initial scroll state, the sampled geometry (the zero state
    where the read alone would have thrown), last synced copies equal to
    the raw states and distinct from each other, a clear dirty flag and
    the props it was given. *)
Theorem constructor_outcome (properties : IProps) (env : Dom.Env) :
  ((exists msg, constructor properties env = Throw msg) <->
   ((exists w, Dom.window env = Dom.declared (Some w)) /\
    Dom.document env = Dom.undeclared)) /\
  (forall c,
     constructor properties env = Ok c ->
     scrollState c = createInitScrollState /\
     dimensionsState c =
       match getClientDimensions env with
       | Ok d => d
       | Throw _ => createEmptyDimensionState
       end /\
     fields (lastSyncedScrollState c) = scrollState c /\
     fields (lastSyncedDimensionsState c) = dimensionsState c /\
     ref (lastSyncedScrollState c) <> ref (lastSyncedDimensionsState c) /\
     componentMightHaveUpdated c = false /\
     props c = properties).
Proof.
  unfold constructor, createInitDimensionsState, getClientDimensions.
  destruct env as [[| [w |]] [| [[[el |]] |]]]; cbn; split.
  all: try (split; [intros (msg & H); discriminate H |]).
  all: try (intros ((w' & Hw) & Hd); discriminate).
  all: try (intros c H; injection H as <-; cbn; repeat split; discriminate).
  all: try (intros c H; discriminate H).
  split.
  - intros _. split; [eexists |]; reflexivity.
  - intros _. eexists. reflexivity.
Qed.

Lemma constructor_outcome_witness :
  (exists msg, constructor quietProps windowOnly = Throw msg) /\
  exists c,
    constructor quietProps desktop = Ok c /\
    fields (lastSyncedDimensionsState c) = dimensionsState c.
Proof.
  destruct (constructor_outcome quietProps windowOnly) as [Hiff _].
  destruct (constructor_outcome quietProps desktop) as [_ Hok].
  split.
  - apply Hiff. split; [eexists |]; reflexivity.
  - eexists.
    assert (Hc : constructor quietProps desktop = Ok _) by (vm_compute; reflexivity).
    split; [exact Hc |]. apply (Hok _ Hc).
Defined.

Lemma max3_bounds a b c :
  a <= max3 a b c /\ b <= max3 a b c /\ c <= max3 a b c /\
  (max3 a b c = a \/ max3 a b c = b \/ max3 a b c = c).
Proof. unfold max3. lia. Qed.

(** X2: in a geometry read that succeeds the document size is at least
    the client size in both directions, and with a window and a root
    element it is the largest of the scroll, offset and client extents:
    at least each of them and equal to one of them. *)
Theorem document_size_bounds (env : Dom.Env) (d : IDimensions.t) :
  getClientDimensions env = Ok d ->
  IDimensions.clientWidth d <= IDimensions.documentWidth d /\
  IDimensions.clientHeight d <= IDimensions.documentHeight d /\
  (forall w doc el,
     Dom.window env = Dom.declared (Some w) ->
     Dom.document env = Dom.declared (Some doc) ->
     Dom.documentElement doc = Some el ->
     Dom.scrollWidth el <= IDimensions.documentWidth d /\
     Dom.offsetWidth el <= IDimensions.documentWidth d /\
     Dom.scrollHeight el <= IDimensions.documentHeight d /\
     Dom.offsetHeight el <= IDimensions.documentHeight d /\
     (IDimensions.documentWidth d = Dom.scrollWidth el \/
      IDimensions.documentWidth d = Dom.offsetWidth el \/
      IDimensions.documentWidth d = Dom.clientWidth el) /\
     (IDimensions.documentHeight d = Dom.scrollHeight el \/
      IDimensions.documentHeight d = Dom.offsetHeight el \/
      IDimensions.documentHeight d = Dom.clientHeight el)).
Proof.
  unfold getClientDimensions.
  destruct env as [[| [w |]] [| [[[el |]] |]]]; cbn; intros H; try discriminate H;
    injection H as <-; cbn.
  all: split; [try lia; apply max3_bounds |].
  all: split; [try lia; apply max3_bounds |].
  all: intros w' doc el' Hw Hd He; try discriminate;
    try (injection Hd as <-; discriminate He).
  injection Hd as <-. cbn in He. injection He as <-.
  pose proof (max3_bounds (Dom.scrollWidth el) (Dom.offsetWidth el) (Dom.clientWidth el)).
  pose proof (max3_bounds (Dom.scrollHeight el) (Dom.offsetHeight el) (Dom.clientHeight el)).
  intuition.
Qed.

Lemma document_size_bounds_witness :
  exists d,
    getClientDimensions desktop = Ok d /\
    IDimensions.clientWidth d <= IDimensions.documentWidth d /\
    IDimensions.clientHeight d <= IDimensions.documentHeight d.
Proof.
  eexists.
  assert (H : getClientDimensions desktop = Ok _) by (vm_compute; reflexivity).
  split; [exact H |].
  destruct (document_size_bounds desktop _ H) as (Hw & Hh & _).
  split; assumption.
Defined.

Lemma getClientDimensions_throws_iff (env : Dom.Env) :
  (exists msg, getClientDimensions env = Throw msg) <->
  (Dom.document env = Dom.undeclared \/
   ((Dom.window env = Dom.undeclared \/ Dom.window env = Dom.declared None) /\
    exists doc el,
      Dom.document env = Dom.declared (Some doc) /\ Dom.documentElement doc = Some el)).
Proof.
  unfold getClientDimensions.
  destruct env as [[| [w |]] [| [[[el |]] |]]]; cbn; split.
  all: try (intros _; eexists; reflexivity).
  all: try (intros _; left; reflexivity).
  all: try (intros _; right; split; [solve [auto] | do 2 eexists; split; reflexivity]).
  all: try (intros (msg & H); discriminate H).
  all: intros [H | ([H | H] & doc & el' & Hd & He)]; try discriminate;
    injection Hd as <-; discriminate He.
Qed.

(** X3: the geometry read of a resize throws exactly when [document] is
    not declared, or when the document has its root element while
    [window] holds no object; then [handleResize] passes the error on and
    leaves the instance as it was, dirty flag included; when the read
    succeeds the raw dimension state becomes the sampled one and the
    dirty flag is set, while the scroll state and both last synced copies
    stay. *)
Theorem resize_failure_is_atomic (env : Dom.Env) (c : Collector) :
  ((exists msg, getClientDimensions env = Throw msg) <->
   (Dom.document env = Dom.undeclared \/
    ((Dom.window env = Dom.undeclared \/ Dom.window env = Dom.declared None) /\
     exists doc el,
       Dom.document env = Dom.declared (Some doc) /\
       Dom.documentElement doc = Some el))) /\
  (forall msg, getClientDimensions env = Throw msg ->
               handleResize env c = (Throw msg, c, [])) /\
  (forall d, getClientDimensions env = Ok d ->
             exists c',
               handleResize env c = (Ok tt, c', []) /\
               dimensionsState c' = d /\
               componentMightHaveUpdated c' = true /\
               scrollState c' = scrollState c /\
               lastSyncedScrollState c' = lastSyncedScrollState c /\
               lastSyncedDimensionsState c' = lastSyncedDimensionsState c).
Proof.
  split; [apply getClientDimensions_throws_iff |]. split.
  - intros msg H. rewrite handleResize_run, H. reflexivity.
  - intros d H. rewrite handleResize_run, H. eexists. split; [reflexivity |].
    repeat split.
Qed.

Lemma resize_failure_is_atomic_witness :
  exists msg, handleResize windowOnly blankCollector = (Throw msg, blankCollector, []).
Proof.
  destruct (resize_failure_is_atomic windowOnly blankCollector) as (Hiff & Hfail & _).
  destruct (proj2 Hiff) as (msg & Hmsg).
  - left. reflexivity.
  - exists msg. apply Hfail, Hmsg.
Defined.

(** ** Runs of scroll samples *)

Lemma run_scroll_fold samples c :
  scrollState (fst (run (scrollSamples samples) c)) =
  fold_left (fun s p => scrollAfter (fst p) (snd p) s) samples (scrollState c).
Proof.
  revert c. induction samples as [| [x y] rest IH]; intros c; [reflexivity |].
  cbn [scrollSamples map run fst snd dispatch fold_left].
  rewrite handleScroll_run. fold (scrollSamples rest).
  destruct (run (scrollSamples rest) _) as [c2 cs2] eqn:Hrest. cbn [fst].
  change c2 with (fst (c2, cs2)). rewrite <- Hrest, IH. reflexivity.
Qed.

Lemma nextDirection_cases v pv flag :
  (v < pv /\ nextDirection v pv flag = true) \/
  (pv < v /\ nextDirection v pv flag = false) \/
  (v = pv /\ nextDirection v pv flag = flag).
Proof.
  unfold nextDirection.
  destruct (Z.ltb_spec v pv); [left; split; [assumption | reflexivity] |].
  destruct (Z.gtb_spec v pv); [right; left; split; [lia | reflexivity] |].
  right; right; split; [lia | reflexivity].
Qed.

Lemma scrollAfter_turnBehind x y s : turnBehind s -> turnBehind (scrollAfter x y s).
Proof.
  intros (Hu & Hd & Hl & Hr & _ & _). unfold turnBehind, scrollAfter; cbn.
  destruct (nextDirection_cases y (IScroll.y s) (IScroll.isScrollingUp s))
    as [[Hy ->] | [[Hy ->] | [Hy ->]]];
  destruct (nextDirection_cases x (IScroll.x s) (IScroll.isScrollingLeft s))
    as [[Hx ->] | [[Hx ->] | [Hx ->]]];
  destruct (IScroll.isScrollingUp s); destruct (IScroll.isScrollingLeft s); cbn;
  repeat split; intros; try discriminate; try lia;
  try (specialize (Hu eq_refl)); try (specialize (Hd eq_refl));
  try (specialize (Hl eq_refl)); try (specialize (Hr eq_refl)); lia.
Qed.

Lemma createInitScrollState_turnBehind : turnBehind createInitScrollState.
Proof. unfold turnBehind; cbn. repeat split; intros; lia. Qed.

Lemma run_scroll_turnBehind samples c :
  scrollState c = createInitScrollState ->
  turnBehind (scrollState (fst (run (scrollSamples samples) c))).
Proof.
  intros Hinit. induction samples as [| [x y] front IH] using rev_ind.
  - cbn. rewrite Hinit. apply createInitScrollState_turnBehind.
  - rewrite run_scroll_last. apply scrollAfter_turnBehind, IH.
Qed.

(** X4: along every run of scroll samples from the initial state the
    delta since the turn has the sign of the direction: it is <= 0 while
    scrolling up or left and >= 0 while scrolling down or right. *)
Theorem delta_sign_follows_direction (samples : list (number * number)) (c : Collector) :
  scrollState c = createInitScrollState ->
  let s := scrollState (fst (run (scrollSamples samples) c)) in
  (IScroll.isScrollingUp s = true -> IScroll.yDTurn s <= 0) /\
  (IScroll.isScrollingDown s = true -> 0 <= IScroll.yDTurn s) /\
  (IScroll.isScrollingLeft s = true -> IScroll.xDTurn s <= 0) /\
  (IScroll.isScrollingRight s = true -> 0 <= IScroll.xDTurn s).
Proof.
  intros Hinit s.
  destruct (run_scroll_turnBehind samples c Hinit) as (Hu & Hd & Hl & Hr & Hx & Hy).
  destruct (run_scroll_exclusiveFlags samples c Hinit) as [Hud Hlr].
  fold s in Hu, Hd, Hl, Hr, Hx, Hy, Hud, Hlr.
  rewrite Hx, Hy. repeat split; intros H.
  - specialize (Hu H). lia.
  - rewrite H, andb_true_r in Hud. specialize (Hd Hud). lia.
  - specialize (Hl H). lia.
  - rewrite H, andb_true_r in Hlr. specialize (Hr Hlr). lia.
Qed.

Lemma delta_sign_follows_direction_witness :
  let s := scrollState (fst (run (scrollSamples [(0, 50); (0, 80); (0, 60)]) blankCollector)) in
  IScroll.yDTurn s <= 0.
Proof.
  cbv zeta.
  pose proof (delta_sign_follows_direction [(0, 50); (0, 80); (0, 60)] blankCollector eq_refl) as H.
  cbv zeta in H. destruct H as (Hu & _). apply Hu. vm_compute. reflexivity.
Defined.

(** X6: after every run of scroll samples from the initial state each
    turn coordinate is a position that was visited: 0 or the coordinate
    of one of the samples. *)
Theorem turns_are_visited_positions (samples : list (number * number)) (c : Collector) :
  scrollState c = createInitScrollState ->
  let s := scrollState (fst (run (scrollSamples samples) c)) in
  In (IScroll.xTurn s) (0 :: map fst samples) /\
  In (IScroll.yTurn s) (0 :: map snd samples).
Proof.
  intros Hinit. induction samples as [| [x y] front IH] using rev_ind.
  - cbn. rewrite Hinit. cbn. auto.
  - cbv zeta in IH |- *. rewrite run_scroll_last. destruct IH as [IHx IHy].
    rewrite !map_app. cbn [map fst snd].
    unfold scrollAfter; cbn [IScroll.xTurn IScroll.yTurn].
    split.
    + destruct (Bool.eqb _ _).
      * destruct IHx as [<- | IHx]; [left; reflexivity | right; apply in_or_app; left; exact IHx].
      * right. apply in_or_app. right. left. reflexivity.
    + destruct (Bool.eqb _ _).
      * destruct IHy as [<- | IHy]; [left; reflexivity | right; apply in_or_app; left; exact IHy].
      * right. apply in_or_app. right. left. reflexivity.
Qed.

Lemma turns_are_visited_positions_witness :
  let s := scrollState (fst (run (scrollSamples [(0, 50); (0, 30)]) blankCollector)) in
  In (IScroll.yTurn s) [0; 50; 30].
Proof.
  cbv zeta.
  exact (proj2 (turns_are_visited_positions [(0, 50); (0, 30)] blankCollector eq_refl)).
Defined.

Lemma scrollAfter_vertical x1 x2 y s1 s2 :
  vertical s1 = vertical s2 ->
  vertical (scrollAfter x1 y s1) = vertical (scrollAfter x2 y s2).
Proof.
  unfold vertical. intros H. injection H as Hy Hu Hd Ht Hdt.
  unfold scrollAfter; cbn. rewrite Hy, Hu, Ht. reflexivity.
Qed.

Lemma scrollAfter_horizontal x y1 y2 s1 s2 :
  horizontal s1 = horizontal s2 ->
  horizontal (scrollAfter x y1 s1) = horizontal (scrollAfter x y2 s2).
Proof.
  unfold horizontal. intros H. injection H as Hx Hl Hr Ht Hdt.
  unfold scrollAfter; cbn. rewrite Hx, Hl, Ht. reflexivity.
Qed.

(** X7: the axes do not interfere: the vertical fields (y, up, down,
    yTurn, yDTurn) after a run of samples depend only on the vertical
    fields before it and on the y of the samples, and likewise for the
    horizontal fields. *)
Theorem axes_do_not_interfere
  (samples1 samples2 : list (number * number)) (c1 c2 : Collector) :
  (vertical (scrollState c1) = vertical (scrollState c2) ->
   map snd samples1 = map snd samples2 ->
   vertical (scrollState (fst (run (scrollSamples samples1) c1))) =
   vertical (scrollState (fst (run (scrollSamples samples2) c2)))) /\
  (horizontal (scrollState c1) = horizontal (scrollState c2) ->
   map fst samples1 = map fst samples2 ->
   horizontal (scrollState (fst (run (scrollSamples samples1) c1))) =
   horizontal (scrollState (fst (run (scrollSamples samples2) c2)))).
Proof.
  rewrite !run_scroll_fold.
  generalize (scrollState c1) (scrollState c2). clear c1 c2.
  revert samples2. induction samples1 as [| [x1 y1] rest1 IH];
    intros [| [x2 y2] rest2] s1 s2; cbn [map fold_left fst snd];
    (split; intros Hs Hm; try discriminate Hm; [exact Hs || idtac ..]).
  - injection Hm as <- Hm. apply (IH rest2); [apply scrollAfter_vertical, Hs | exact Hm].
  - injection Hm as <- Hm. apply (IH rest2); [apply scrollAfter_horizontal, Hs | exact Hm].
Qed.

Lemma axes_do_not_interfere_witness :
  vertical (scrollState (fst (run (scrollSamples [(0, 50); (7, 30)]) blankCollector))) =
  vertical (scrollState (fst (run (scrollSamples [(90, 50); (0, 30)]) blankCollector))).
Proof.
  apply (axes_do_not_interfere [(0, 50); (7, 30)] [(90, 50); (0, 30)]
           blankCollector blankCollector); reflexivity.
Defined.

(** ** Frames *)

Lemma tick_idle c :
  componentMightHaveUpdated c = false -> tick c = (Ok tt, c, []).
Proof.
  destruct c as [ss ds ls ld dirty sc dc n pr]; cbn. intros ->. reflexivity.
Qed.

(** A frame on an instance whose last synced copies carry the raw
    state. *)
Lemma tick_settled c :
  settled c -> tick c = (Ok tt, set_componentMightHaveUpdated false c, []).
Proof.
  destruct c as [ss ds ls ld dirty sc dc n pr]. unfold settled; cbn.
  intros [Hs Hd]. unfold_methods. cbn.
  destruct dirty; cbn; [| reflexivity].
  rewrite (proj2 (shallowEqualScroll_eq _ _) Hs).
  rewrite (proj2 (shallowEqualDimensions_eq _ _) Hd).
  reflexivity.
Qed.

(** The calls of a frame, and what it leaves, for an arbitrary instance. *)
Lemma tick_shape c :
  exists r c' cs,
    tick c = (r, c', cs) /\
    scrollState c' = scrollState c /\
    dimensionsState c' = dimensionsState c /\
    props c' = props c /\
    ((componentMightHaveUpdated c = false -> settled c) -> settled c') /\
    ((r = Ok tt /\ cs = [] /\ componentMightHaveUpdated c' = false) \/
     exists v o,
       ((onUpdate (props c) v o = Ok tt /\ r = Ok tt /\
         cs = [OnUpdate v o; UpdateOnIdle v o] /\
         componentMightHaveUpdated c' = false) \/
        (exists msg,
           onUpdate (props c) v o = Throw msg /\ r = Throw msg /\
           cs = [OnUpdate v o] /\
           componentMightHaveUpdated c' = true)) /\
       scrollDidUpdate o || dimensionsDidUpdate o = true /\
       settled c').
Proof.
  destruct c as [ss ds ls ld dirty sc dc n pr].
  unfold settled. unfold_methods. cbn.
  destruct dirty; cbn;
    [ destruct (shallowEqualScroll (fields ls) ss) eqn:Es;
      destruct (shallowEqualDimensions (fields ld) ds) eqn:Ed; cbn;
      destruct sc as [[sa sr] |], dc as [[da dr] |]; cbn in *; split_tests;
      split_consumer | ];
    do 3 eexists; (split; [reflexivity |]); eq_facts; cbn;
    (split; [reflexivity |]); (split; [reflexivity |]); (split; [reflexivity |]);
    (split; [intros Hset; try (destruct (Hset eq_refl)); split; congruence |]);
    first
      [ left; split_all; reflexivity
      | right; do 2 eexists;
        (split;
         [ first [ left; split; [eassumption |]; split_all; reflexivity
                 | right; eexists; split; [eassumption |]; split_all; reflexivity ]
         | split; [reflexivity | split; cbn; congruence] ]) ].
Qed.

(** X8: a frame in which [onUpdate] does not throw clears the dirty
    flag, and the frame after it, with nothing in between, makes no call
    and leaves the instance as it is; a frame in which [onUpdate] throws
    passes the error on with the dirty flag still set; either way the
    frame that follows makes no call: the update is handed to [onUpdate]
    once. *)
Theorem frame_after_frame_is_idle (c : Collector) :
  calls tick (exec tick c) = [] /\
  (outcome tick c = Ok tt ->
   componentMightHaveUpdated (exec tick c) = false /\
   tick (exec tick c) = (Ok tt, exec tick c, [])) /\
  (forall msg,
     outcome tick c = Throw msg ->
     componentMightHaveUpdated (exec tick c) = true).
Proof.
  destruct (tick_shape c) as (r & c' & cs & Hrun & _ & _ & _ & _ & Hcase).
  unfold calls, exec, outcome. rewrite Hrun. cbn [fst snd].
  destruct Hcase as [(-> & -> & Hd) | (v & o & Hcall & _ & Hset)].
  - rewrite (tick_idle c' Hd). repeat split; [exact Hd | discriminate].
  - split; [rewrite (tick_settled c' Hset); reflexivity |].
    destruct Hcall as [(_ & -> & _ & Hd) | (msg & _ & -> & _ & Hd)].
    + split; [| discriminate]. intros _. split; [exact Hd | apply tick_idle, Hd].
    + split; [discriminate |]. intros msg' _. exact Hd.
Qed.

Lemma frame_after_frame_is_idle_witness :
  let c := exec (handleScroll 0 50)
             (mkCollector createInitScrollState createEmptyDimensionState
                (mkObj 1%nat createInitScrollState)
                (mkObj 0%nat createEmptyDimensionState)
                false None None 2%nat throwingProps) in
  outcome tick c = Throw "consumer error" /\
  componentMightHaveUpdated (exec tick c) = true /\
  calls tick (exec tick c) = [].
Proof.
  cbv zeta.
  assert (Hthrow :
    outcome tick
      (exec (handleScroll 0 50)
         (mkCollector createInitScrollState createEmptyDimensionState
            (mkObj 1%nat createInitScrollState)
            (mkObj 0%nat createEmptyDimensionState)
            false None None 2%nat throwingProps)) = Throw "consumer error")
    by (vm_compute; reflexivity).
  destruct (frame_after_frame_is_idle
              (exec (handleScroll 0 50)
                 (mkCollector createInitScrollState createEmptyDimensionState
                    (mkObj 1%nat createInitScrollState)
                    (mkObj 0%nat createEmptyDimensionState)
                    false None None 2%nat throwingProps)))
    as (Hquiet & _ & Hset).
  split; [exact Hthrow |]. split; [exact (Hset _ Hthrow) | exact Hquiet].
Defined.

(** X9: a frame makes no call and returns, or it calls [onUpdate] with
    at least one of the two flags set; when [onUpdate] returns, the call
    into [updateOnIdle] follows with the same snapshot and the same
    flags and the frame returns; when [onUpdate] throws, the frame makes
    no further call and passes the error on. *)
Theorem frame_feeds_idle_path_after_update (c : Collector) :
  (outcome tick c = Ok tt /\ calls tick c = []) \/
  exists v o,
    scrollDidUpdate o || dimensionsDidUpdate o = true /\
    ((onUpdate (props c) v o = Ok tt /\
      outcome tick c = Ok tt /\
      calls tick c = [OnUpdate v o; UpdateOnIdle v o]) \/
     (exists msg,
        onUpdate (props c) v o = Throw msg /\
        outcome tick c = Throw msg /\
        calls tick c = [OnUpdate v o])).
Proof.
  destruct (tick_shape c) as (r & c' & cs & Hrun & _ & _ & _ & _ & Hcase).
  unfold calls, outcome. rewrite Hrun. cbn [fst snd].
  destruct Hcase as [(-> & -> & _) | (v & o & Hcall & Hany & _)].
  - left. split; reflexivity.
  - right. exists v, o. split; [exact Hany |].
    destruct Hcall as [(Hret & -> & -> & _) | (msg & Hthrow & -> & -> & _)].
    + left. repeat split. exact Hret.
    + right. exists msg. repeat split. exact Hthrow.
Qed.

Lemma getPropsFromState_quiet c :
  exists v c',
    getPropsFromState c = (Ok v, c', []) /\
    scrollState c' = scrollState c /\
    dimensionsState c' = dimensionsState c /\
    lastSyncedScrollState c' = lastSyncedScrollState c /\
    lastSyncedDimensionsState c' = lastSyncedDimensionsState c /\
    componentMightHaveUpdated c' = componentMightHaveUpdated c.
Proof.
  destruct c as [ss ds ls ld dirty sc dc n pr].
  unfold_methods. cbn.
  destruct sc as [[sa sr] |], dc as [[da dr] |]; cbn; split_tests;
    do 2 eexists; (split; [reflexivity |]); repeat split.
Qed.

(** X10: only a frame publishes: a scroll event, a resize run and a read
    of the public state make no callback call and leave both last synced
    copies as they are. *)
Theorem only_frames_publish (i : Input) (c : Collector) :
  i <> AnimationFrame ->
  calls (dispatch i) c = [] /\
  lastSyncedScrollState (exec (dispatch i) c) = lastSyncedScrollState c /\
  lastSyncedDimensionsState (exec (dispatch i) c) = lastSyncedDimensionsState c.
Proof.
  intros Hi. unfold calls, exec. destruct i as [x y | env | |]; cbn [dispatch].
  - rewrite handleScroll_run. repeat split.
  - rewrite handleResize_run. destruct (getClientDimensions env); repeat split.
  - contradiction Hi; reflexivity.
  - destruct (getPropsFromState_quiet c) as (v & c' & Hrun & _ & _ & Hs & Hd & _).
    unfold bind. rewrite Hrun. cbn. repeat split; assumption.
Qed.

Lemma only_frames_publish_witness :
  calls (dispatch (ScrollEvent 0 50)) blankCollector = [] /\
  lastSyncedScrollState (exec (dispatch (ScrollEvent 0 50)) blankCollector) =
    lastSyncedScrollState blankCollector.
Proof.
  destruct (only_frames_publish (ScrollEvent 0 50) blankCollector) as (Hc & Hs & _);
    [discriminate |].
  split; assumption.
Defined.

(** ** No change is lost *)

Lemma dispatch_settled i c :
  (componentMightHaveUpdated c = false -> settled c) ->
  componentMightHaveUpdated (exec (dispatch i) c) = false ->
  settled (exec (dispatch i) c).
Proof.
  intros Hinv. unfold exec. destruct i as [x y | env | |]; cbn [dispatch].
  - rewrite handleScroll_run. cbn. discriminate.
  - rewrite handleResize_run. destruct (getClientDimensions env); cbn;
      [discriminate | exact Hinv].
  - destruct (tick_shape c) as (r & c' & cs & Hrun & _ & _ & _ & Hset & _).
    rewrite Hrun. cbn. intros _. exact (Hset Hinv).
  - destruct (getPropsFromState_quiet c) as (v & c' & Hrun & Hss & Hds & Hs & Hd & Hdirty).
    unfold bind. rewrite Hrun. cbn. rewrite Hdirty. intros H.
    unfold settled. rewrite Hss, Hds, Hs, Hd. exact (Hinv H).
Qed.

Lemma run_settled inputs c :
  (componentMightHaveUpdated c = false -> settled c) ->
  componentMightHaveUpdated (fst (run inputs c)) = false ->
  settled (fst (run inputs c)).
Proof.
  revert c. induction inputs as [| i rest IH]; intros c Hinv; [exact Hinv |].
  cbn [run]. pose proof (dispatch_settled i c Hinv) as Hstep. unfold exec in Hstep.
  destruct (dispatch i c) as [[r c1] cs1]. cbn [fst snd] in Hstep.
  specialize (IH c1 Hstep).
  destruct (run rest c1) as [c2 cs2]. exact IH.
Qed.

Lemma constructor_settled properties env c : constructor properties env = Ok c -> settled c.
Proof.
  unfold constructor. destruct (createInitDimensionsState env); [| discriminate].
  intros H; injection H as <-. split; reflexivity.
Qed.

(** X11: no change is lost: in every reachable state with a clear dirty
    flag the raw scroll and dimension states are shallow-equal to their
    last synced copies, and after a frame in any reachable state they
    are, the raw states being left untouched by the frame. *)
Theorem no_change_is_lost (properties : IProps) (env : Dom.Env) (c0 : Collector) (inputs : list Input) :
  constructor properties env = Ok c0 ->
  let c := fst (run inputs c0) in
  (componentMightHaveUpdated c = false ->
   shallowEqualScroll (fields (lastSyncedScrollState c)) (scrollState c) = true /\
   shallowEqualDimensions (fields (lastSyncedDimensionsState c)) (dimensionsState c) = true) /\
  (let c' := exec tick c in
   scrollState c' = scrollState c /\
   dimensionsState c' = dimensionsState c /\
   shallowEqualScroll (fields (lastSyncedScrollState c')) (scrollState c) = true /\
   shallowEqualDimensions (fields (lastSyncedDimensionsState c')) (dimensionsState c) = true).
Proof.
  intros Hc c.
  assert (Hinv : componentMightHaveUpdated c = false -> settled c).
  { apply run_settled. intros _. exact (constructor_settled properties env c0 Hc). }
  split.
  - intros Hd. destruct (Hinv Hd) as [Hs Hdm].
    split; [apply shallowEqualScroll_eq | apply shallowEqualDimensions_eq]; assumption.
  - cbv zeta.
    destruct (tick_shape c) as (r & c' & cs & Hrun & Hss & Hds & _ & Hset & _).
    unfold exec. rewrite Hrun. cbn [fst snd].
    destruct (Hset Hinv) as [Hs Hdm]. rewrite <- Hss, <- Hds.
    split; [reflexivity |]. split; [reflexivity |].
    split; [apply shallowEqualScroll_eq | apply shallowEqualDimensions_eq]; assumption.
Qed.

Lemma no_change_is_lost_witness :
  let c := fst (run [ScrollEvent 0 50; ResizeEvent desktop] blankCollector) in
  shallowEqualScroll (fields (lastSyncedScrollState (exec tick c))) (scrollState c) = true /\
  shallowEqualDimensions (fields (lastSyncedDimensionsState (exec tick c)))
    (dimensionsState c) = true.
Proof.
  cbv zeta.
  pose proof (no_change_is_lost quietProps noBrowser blankCollector
                [ScrollEvent 0 50; ResizeEvent desktop] eq_refl) as H.
  cbv zeta in H. destruct H as (_ & _ & _ & Hs & Hd). split; assumption.
Defined.

(** ** Reading the public state *)

(** X12: reading the public state in a reachable state returns copies
    with the fields of the last synced states; a second read returns the
    very same objects and changes nothing, and no read changes the raw
    states, the last synced copies or the dirty flag. *)
Theorem public_state_read_is_stable (properties : IProps) (env : Dom.Env) (c0 : Collector) (inputs : list Input) :
  constructor properties env = Ok c0 ->
  let c := fst (run inputs c0) in
  exists v c1,
    getPropsFromState c = (Ok v, c1, []) /\
    getPropsFromState c1 = (Ok v, c1, []) /\
    fields (scroll v) = fields (lastSyncedScrollState c) /\
    fields (dimensions v) = fields (lastSyncedDimensionsState c) /\
    scrollState c1 = scrollState c /\
    dimensionsState c1 = dimensionsState c /\
    lastSyncedScrollState c1 = lastSyncedScrollState c /\
    lastSyncedDimensionsState c1 = lastSyncedDimensionsState c /\
    componentMightHaveUpdated c1 = componentMightHaveUpdated c.
Proof.
  intros Hc c.
  destruct (run_chained inputs None c0 (constructor_inv properties env c0 Hc)) as [_ Hwf].
  fold c in Hwf.
  destruct (getPropsFromState_spec c Hwf)
    as (v & c1 & Hrun & Hwf1 & Hss & Hds & Hs & Hd & Hdirty & Hpub & _).
  destruct (getPropsFromState_spec c1 Hwf1)
    as (v2 & c2 & Hrun2 & _ & _ & _ & _ & _ & _ & _ & Hsame).
  destruct (Hsame v Hpub) as [-> ->].
  destruct (publishedAs_fields v c1 Hwf1 Hpub) as [Hfs Hfd].
  exists v, c1. rewrite <- Hs, <- Hd. repeat split; assumption.
Qed.

Lemma public_state_read_is_stable_witness :
  exists v c1,
    getPropsFromState (fst (run [ScrollEvent 0 50; AnimationFrame] blankCollector)) =
      (Ok v, c1, []) /\
    getPropsFromState c1 = (Ok v, c1, []).
Proof.
  destruct (public_state_read_is_stable quietProps noBrowser blankCollector
              [ScrollEvent 0 50; AnimationFrame] eq_refl)
    as (v & c1 & H1 & H2 & _).
  exists v, c1. split; assumption.
Defined.

(** ** What a frame delivers *)

(** X13: scroll events are coalesced: whatever happened before, after a
    burst of scroll samples a frame hands [onUpdate] at most the one
    snapshot of the raw state at the frame, on both sides; its position
    is that of the last sample. *)
Theorem frame_delivers_latest_state
  (properties : IProps) (env : Dom.Env) (c0 : Collector) (inputs : list Input)
  (samples : list (number * number)) (x y : number) :
  constructor properties env = Ok c0 ->
  let c := fst (run (inputs ++ scrollSamples (samples ++ [(x, y)])) c0) in
  forall v o,
    In (v, o) (onUpdateCalls (calls tick c)) ->
    fields (scroll v) = scrollState c /\
    fields (dimensions v) = dimensionsState c /\
    IScroll.x (fields (scroll v)) = x /\
    IScroll.y (fields (scroll v)) = y.
Proof.
  intros Hc c v o Hin.
  destruct (run_chained (inputs ++ scrollSamples (samples ++ [(x, y)])) None c0
              (constructor_inv properties env c0 Hc)) as [_ Hwf].
  fold c in Hwf.
  assert (Hxy : IScroll.x (scrollState c) = x /\ IScroll.y (scrollState c) = y).
  { subst c. rewrite run_app. cbn [fst]. rewrite run_scroll_last. split; reflexivity. }
  destruct (tick_spec c Hwf) as (r & c' & cs & Hrun & _ & _ & _ & _ & Hcase).
  unfold calls in Hin. rewrite Hrun in Hin. cbn [snd] in Hin.
  destruct (componentMightHaveUpdated c && _).
  - destruct Hcase as (v1 & Hcs & _ & _ & _ & Hvs & Hvd & _).
    rewrite Hcs in Hin. cbn in Hin. destruct Hin as [Hin | []]. injection Hin as <- <-.
    rewrite Hvs. repeat split; tauto.
  - destruct Hcase as [-> _]. destruct Hin.
Qed.

Lemma frame_delivers_latest_state_witness :
  let c := fst (run ([AnimationFrame] ++ scrollSamples ([(0, 50); (0, 80)] ++ [(0, 60)]))
                  blankCollector) in
  exists v o,
    onUpdateCalls (calls tick c) = [(v, o)] /\
    IScroll.y (fields (scroll v)) = 60.
Proof.
  cbv zeta. do 2 eexists.
  assert (Hlog :
    onUpdateCalls
      (calls tick
         (fst (run ([AnimationFrame] ++ scrollSamples ([(0, 50); (0, 80)] ++ [(0, 60)]))
                 blankCollector))) = [(_, _)]) by (vm_compute; reflexivity).
  split; [exact Hlog |].
  pose proof (frame_delivers_latest_state quietProps noBrowser blankCollector [AnimationFrame]
                [(0, 50); (0, 80)] 0 60 eq_refl) as H.
  cbv zeta in H. refine (proj2 (proj2 (proj2 (H _ _ _)))).
  vm_compute. left. reflexivity.
Defined.

(** X14: between two successive calls of [onUpdate] the flags tell what
    changed: [scrollDidUpdate] is set exactly when the scroll side is not
    shallow-equal to the one delivered before, and likewise
    [dimensionsDidUpdate]. *)
Theorem update_flags_tell_what_changed
  (properties : IProps) (env : Dom.Env) (c0 : Collector) (inputs : list Input) :
  constructor properties env = Ok c0 ->
  forall before v1 o1 v2 o2 after,
    onUpdateCalls (snd (run inputs c0)) = before ++ (v1, o1) :: (v2, o2) :: after ->
    scrollDidUpdate o2 =
      negb (shallowEqualScroll (fields (scroll v1)) (fields (scroll v2))) /\
    dimensionsDidUpdate o2 =
      negb (shallowEqualDimensions (fields (dimensions v1)) (fields (dimensions v2))).
Proof.
  intros Hc before v1 o1 v2 o2 after Hlog.
  destruct (run_chained inputs None c0 (constructor_inv properties env c0 Hc)) as [Hchain _].
  rewrite Hlog in Hchain. apply chained_adjacent in Hchain.
  destruct Hchain as (_ & Hs & Hks & Hd & Hkd). cbn [fst snd] in *.
  split.
  - destruct (scrollDidUpdate o2).
    + rewrite Hs; reflexivity.
    + rewrite Hks by reflexivity.
      rewrite (proj2 (shallowEqualScroll_eq _ _) eq_refl). reflexivity.
  - destruct (dimensionsDidUpdate o2).
    + rewrite Hd; reflexivity.
    + rewrite Hkd by reflexivity.
      rewrite (proj2 (shallowEqualDimensions_eq _ _) eq_refl). reflexivity.
Qed.

Lemma update_flags_tell_what_changed_witness :
  exists v1 o1 v2 o2,
    onUpdateCalls
      (snd (run [ScrollEvent 0 50; AnimationFrame; ResizeEvent desktop; AnimationFrame]
              blankCollector)) = [(v1, o1); (v2, o2)] /\
    scrollDidUpdate o2 =
      negb (shallowEqualScroll (fields (scroll v1)) (fields (scroll v2))).
Proof.
  do 4 eexists.
  assert (Hlog :
    onUpdateCalls
      (snd (run [ScrollEvent 0 50; AnimationFrame; ResizeEvent desktop; AnimationFrame]
              blankCollector)) = [(_, _); (_, _)]) by (vm_compute; reflexivity).
  split; [exact Hlog |].
  exact (proj1 (update_flags_tell_what_changed quietProps noBrowser blankCollector _ eq_refl
                  [] _ _ _ _ [] Hlog)).
Defined.

(** ** Objects handed out are copies *)

Ltac apart_facts :=
  unfold separated, detached, cellApart, cellsApart in *; cbn in *.

Lemma getPropsFromState_separated c :
  separated c ->
  exists v c',
    getPropsFromState c = (Ok v, c', []) /\ separated c' /\ detached v c'.
Proof.
  destruct c as [ss ds ls ld dirty sc dc n pr].
  intros Hsep. unfold_methods. cbn.
  destruct sc as [[sa sr] |], dc as [[da dr] |]; cbn in *; split_tests;
    do 2 eexists; (split; [reflexivity |]); apart_facts; split_all; lia.
Qed.

Lemma tick_separated c :
  separated c ->
  exists r c' cs,
    tick c = (r, c', cs) /\ separated c' /\
    forall v o, In (v, o) (onUpdateCalls cs) -> detached v c'.
Proof.
  destruct c as [ss ds ls ld dirty sc dc n pr].
  intros Hsep. unfold_methods. cbn.
  destruct dirty; cbn;
    [ destruct (shallowEqualScroll (fields ls) ss) eqn:Es;
      destruct (shallowEqualDimensions (fields ld) ds) eqn:Ed; cbn;
      destruct sc as [[sa sr] |], dc as [[da dr] |]; cbn in *; split_tests;
      split_consumer | ];
    do 3 eexists; (split; [reflexivity |]);
    (split; [first [exact Hsep | apart_facts; split_all; lia] |]);
    intros v o Hin; cbn in Hin;
    try (destruct Hin as [Hin | []]; injection Hin as <- <-);
    try contradiction;
    apart_facts; split_all; lia.
Qed.

Lemma dispatch_separated i c : separated c -> separated (exec (dispatch i) c).
Proof.
  intros Hsep. unfold exec. destruct i as [x y | env | |]; cbn [dispatch].
  - rewrite handleScroll_run. exact Hsep.
  - rewrite handleResize_run. destruct (getClientDimensions env); exact Hsep.
  - destruct (tick_separated c Hsep) as (r & c' & cs & -> & H & _). exact H.
  - destruct (getPropsFromState_separated c Hsep) as (v & c' & Hrun & H & _).
    unfold bind. rewrite Hrun. exact H.
Qed.

Lemma run_separated inputs c : separated c -> separated (fst (run inputs c)).
Proof.
  revert c. induction inputs as [| i rest IH]; intros c Hsep; [exact Hsep |].
  cbn [run]. pose proof (dispatch_separated i c Hsep) as Hstep. unfold exec in Hstep.
  destruct (dispatch i c) as [[r c1] cs1]. cbn [fst snd] in Hstep.
  specialize (IH c1 Hstep). destruct (run rest c1) as [c2 cs2]. exact IH.
Qed.

Lemma constructor_separated properties env c : constructor properties env = Ok c -> separated c.
Proof.
  unfold constructor. destruct (createInitDimensionsState env); [| discriminate].
  intros H; injection H as <-. apart_facts. split_all; try exact I; lia.
Qed.

(** X15: the objects handed out are copies: in a snapshot passed to
    [onUpdate] or returned by [getPropsFromState] the scroll object and
    the dimensions object are distinct from each other and from the
    instance's own last synced copies. *)
Theorem published_objects_are_copies
  (properties : IProps) (env : Dom.Env) (c0 : Collector) (inputs : list Input) :
  constructor properties env = Ok c0 ->
  let c := fst (run inputs c0) in
  (forall v o,
     In (v, o) (onUpdateCalls (calls tick c)) ->
     ref (scroll v) <> ref (lastSyncedScrollState (exec tick c)) /\
     ref (dimensions v) <> ref (lastSyncedDimensionsState (exec tick c)) /\
     ref (scroll v) <> ref (dimensions v)) /\
  (exists v c1,
     getPropsFromState c = (Ok v, c1, []) /\
     ref (scroll v) <> ref (lastSyncedScrollState c1) /\
     ref (dimensions v) <> ref (lastSyncedDimensionsState c1) /\
     ref (scroll v) <> ref (dimensions v)).
Proof.
  intros Hc c.
  assert (Hsep : separated c) by (apply run_separated, (constructor_separated properties env), Hc).
  split.
  - intros v o Hin.
    destruct (tick_separated c Hsep) as (r & c' & cs & Hrun & _ & Hdet).
    unfold calls in Hin. unfold exec. rewrite Hrun in *. cbn [fst snd] in *.
    destruct (Hdet v o Hin) as (H1 & _ & _ & H4 & H5). repeat split; assumption.
  - destruct (getPropsFromState_separated c Hsep) as (v & c1 & Hrun & _ & Hdet).
    exists v, c1. destruct Hdet as (H1 & _ & _ & H4 & H5). repeat split; assumption.
Qed.

Lemma published_objects_are_copies_witness :
  exists v c1,
    getPropsFromState (fst (run [ScrollEvent 0 50; AnimationFrame] blankCollector)) =
      (Ok v, c1, []) /\
    ref (scroll v) <> ref (lastSyncedScrollState c1).
Proof.
  destruct (published_objects_are_copies quietProps noBrowser blankCollector
              [ScrollEvent 0 50; AnimationFrame] eq_refl)
    as (_ & v & c1 & Hrun & H & _).
  exists v, c1. split; assumption.
Defined.

(** ** Mounting and unmounting *)

Lemma registration_eqb_own r r' :
  own (Page.callback r) = true -> own (Page.callback r') = false ->
  Page.registration_eqb r r' = false.
Proof.
  unfold Page.registration_eqb.
  destruct (Page.callback r), (Page.callback r'); cbn; try discriminate;
    intros _ _; rewrite ?andb_false_r; reflexivity.
Qed.

Lemma existsb_foreign r l :
  own (Page.callback r) = true ->
  (forall r', In r' l -> own (Page.callback r') = false) ->
  existsb (Page.registration_eqb r) l = false.
Proof.
  intros Hr Hl. induction l as [| r' rest IH]; [reflexivity |].
  cbn. rewrite (registration_eqb_own r r' Hr) by (apply Hl; left; reflexivity).
  apply IH. intros r'' Hin. apply Hl. right. exact Hin.
Qed.

Lemma filter_foreign r l :
  own (Page.callback r) = true ->
  (forall r', In r' l -> own (Page.callback r') = false) ->
  filter (fun r' => negb (Page.registration_eqb r r')) l = l.
Proof.
  intros Hr Hl. induction l as [| r' rest IH]; [reflexivity |].
  cbn. rewrite (registration_eqb_own r r' Hr) by (apply Hl; left; reflexivity).
  cbn. f_equal. apply IH. intros r'' Hin. apply Hl. right. exact Hin.
Qed.

Lemma filter_own_foreign (l : list (nat * Page.Callback)) :
  (forall q, In q l -> own (snd q) = false) ->
  filter (fun q => own (snd q)) l = [].
Proof.
  intros Hl. induction l as [| q rest IH]; [reflexivity |].
  cbn. rewrite (Hl q) by (left; reflexivity).
  apply IH. intros q' Hin. apply Hl. right. exact Hin.
Qed.

Lemma addEventListener_new ty cb o p :
  existsb (Page.registration_eqb (Page.mkRegistration ty cb (Page.captureOf o)))
    (Page.listeners p) = false ->
  Page.addEventListener ty cb o p =
  Page.mk (Page.listeners p ++ [Page.mkRegistration ty cb (Page.captureOf o)])
    (Page.frameRequests p) (Page.nextHandle p).
Proof. unfold Page.addEventListener. intros ->. reflexivity. Qed.

Lemma componentDidMount_mountedOn passive c t p :
  untouched p ->
  mountedOn (Page.listeners p) (componentDidMount passive (mkMounted c t p)) /\
  requesting (componentDidMount passive (mkMounted c t p)) /\
  instance (componentDidMount passive (mkMounted c t p)) = c.
Proof.
  destruct p as [L Q n]. unfold untouched. cbn [Page.listeners Page.frameRequests
    Page.nextHandle]. intros (Hl & Hq & Hh).
  unfold componentDidMount. cbn [page instance].
  set (options := if passive then Page.passiveOption true else Page.useCapture false).
  assert (Hcap : Page.captureOf options = false) by (destruct passive; reflexivity).
  rewrite (addEventListener_new Page.scroll Page.handleScroll options (Page.mk L Q n))
    by (rewrite Hcap; apply existsb_foreign; [reflexivity | exact Hl]).
  cbn [Page.listeners Page.frameRequests Page.nextHandle].
  rewrite (addEventListener_new Page.resize Page.handleResize options)
    by (rewrite Hcap; cbn [Page.listeners]; rewrite existsb_app, existsb_foreign;
        [reflexivity | reflexivity | exact Hl]).
  cbn [Page.listeners Page.frameRequests Page.nextHandle].
  rewrite (addEventListener_new Page.orientationchange Page.handleResize options)
    by (rewrite Hcap; cbn [Page.listeners]; rewrite !existsb_app, existsb_foreign;
        [reflexivity | reflexivity | exact Hl]).
  rewrite Hcap. unfold mountedOn, requesting, ownRequests.
  cbn [Page.listeners Page.raf page tickId instance Page.frameRequests Page.nextHandle].
  assert (Hreq : exists handle,
            Some n = Some handle /\
            filter (fun q => own (snd q)) (Q ++ [(n, Page.tick)]) = [(handle, Page.tick)]).
  { eexists. split; [reflexivity |].
    rewrite filter_app, filter_own_foreign by exact Hq. reflexivity. }
  split; [| split; [exact Hreq | reflexivity]].
  split; [rewrite <- !app_assoc; reflexivity |]. split; [| right; exact Hreq].
  intros q Hin. apply in_app_or in Hin. destruct Hin as [Hin | [<- | []]].
  - specialize (Hh q Hin). lia.
  - cbn. lia.
Qed.

Lemma runRequests_foreign due m :
  (forall q, In q due -> own (snd q) = false) -> runRequests due m = (m, []).
Proof.
  induction due as [| [h cb] rest IH]; intros Hd; [reflexivity |].
  assert (Hcb : own cb = false) by (apply (Hd (h, cb)); left; reflexivity).
  destruct cb; try discriminate Hcb. cbn.
  apply IH. intros q Hin. apply Hd. right. exact Hin.
Qed.

Lemma filter_own_nil (l : list (nat * Page.Callback)) :
  filter (fun q => own (snd q)) l = [] ->
  forall q, In q l -> own (snd q) = false.
Proof.
  intros Hf q Hin. destruct (own (snd q)) eqn:Hq; [| reflexivity].
  assert (Hin' : In q (filter (fun q => own (snd q)) l))
    by (apply filter_In; split; assumption).
  rewrite Hf in Hin'. destruct Hin'.
Qed.

(** The requests of a mounted collector that are due at a frame hold its
    [tick] once, among foreign requests. *)
Lemma runRequests_one_tick due handle m :
  filter (fun q => own (snd q)) due = [(handle, Page.tick)] ->
  runRequests due m = tickOnPage m.
Proof.
  induction due as [| [h cb] rest IH]; intros Hf; [discriminate Hf |].
  cbn in Hf. destruct cb; cbn in Hf; try discriminate Hf.
  - injection Hf as _ Hf. cbn.
    destruct (tickOnPage m) as [m1 cs1].
    rewrite runRequests_foreign, app_nil_r; [reflexivity |].
    apply filter_own_nil, Hf.
  - cbn. apply IH, Hf.
Qed.

(** [tick] on a page: the frame body, and a new request exactly when the
    body returned. *)
Lemma tickOnPage_spec m :
  snd (tickOnPage m) = calls tick (instance m) /\
  instance (fst (tickOnPage m)) = exec tick (instance m) /\
  Page.listeners (page (fst (tickOnPage m))) = Page.listeners (page m) /\
  (outcome tick (instance m) = Ok tt ->
   tickId (fst (tickOnPage m)) = Some (Page.nextHandle (page m)) /\
   Page.frameRequests (page (fst (tickOnPage m))) =
     Page.frameRequests (page m) ++ [(Page.nextHandle (page m), Page.tick)] /\
   Page.nextHandle (page (fst (tickOnPage m))) = S (Page.nextHandle (page m))) /\
  (forall msg,
     outcome tick (instance m) = Throw msg ->
     tickId (fst (tickOnPage m)) = tickId m /\
     page (fst (tickOnPage m)) = page m).
Proof.
  unfold tickOnPage, calls, exec, outcome.
  destruct (tick (instance m)) as [[[[] | msg] c] cs]; cbn;
    repeat split; intros; try discriminate; reflexivity.
Qed.

Lemma animationFrame_spec foreignListeners m :
  mountedOn foreignListeners m ->
  mountedOn foreignListeners (fst (animationFrame m)) /\
  (requesting m ->
   snd (animationFrame m) = calls tick (instance m) /\
   instance (fst (animationFrame m)) = exec tick (instance m) /\
   (outcome tick (instance m) = Ok tt -> requesting (fst (animationFrame m))) /\
   (forall msg,
      outcome tick (instance m) = Throw msg ->
      ownRequests (fst (animationFrame m)) = [])) /\
  (ownRequests m = [] ->
   snd (animationFrame m) = [] /\
   instance (fst (animationFrame m)) = instance m /\
   ownRequests (fst (animationFrame m)) = []).
Proof.
  intros (Hl & Hh & [Hnone | (handle & Ht & Hf)]).
  - unfold animationFrame.
    rewrite runRequests_foreign by (apply filter_own_nil, Hnone).
    cbn [fst snd]. split; [| split].
    + split; [exact Hl |]. split; [intros q [] | left; reflexivity].
    + intros (handle & _ & Hf). unfold ownRequests in Hnone, Hf.
      rewrite Hnone in Hf. discriminate Hf.
    + intros _. repeat split.
  - unfold animationFrame. rewrite (runRequests_one_tick _ handle) by exact Hf.
    set (m0 := mkMounted (instance m) (tickId m)
                 (Page.mk (Page.listeners (page m)) [] (Page.nextHandle (page m)))).
    destruct (tickOnPage_spec m0) as (Hcalls & Hinst & Hlist & Hok & Hthrow).
    cbn [instance page tickId Page.listeners Page.frameRequests Page.nextHandle m0]
      in Hcalls, Hinst, Hlist, Hok, Hthrow.
    assert (Hm' : mountedOn foreignListeners (fst (tickOnPage m0)) /\
                  (outcome tick (instance m) = Ok tt -> requesting (fst (tickOnPage m0))) /\
                  (forall msg, outcome tick (instance m) = Throw msg ->
                               ownRequests (fst (tickOnPage m0)) = [])).
    { unfold mountedOn, requesting, ownRequests. rewrite Hlist.
      destruct (outcome tick (instance m)) as [[] | msg] eqn:Hout.
      - destruct (Hok eq_refl) as (Hid & Hreq & Hnext). rewrite Hid, Hreq, Hnext.
        assert (Hone : exists handle',
                  Some (Page.nextHandle (page m)) = Some handle' /\
                  filter (fun q => own (snd q)) [(Page.nextHandle (page m), Page.tick)] =
                    [(handle', Page.tick)]) by (eexists; split; reflexivity).
        split; [| split; [intros _; exact Hone | intros msg H; discriminate H]].
        split; [exact Hl |]. split; [| right; exact Hone].
        intros q [<- | []]. cbn. lia.
      - destruct (Hthrow msg eq_refl) as (Hid & Hpage). rewrite Hpage.
        split; [| split; [intros H; discriminate H | intros msg' _; reflexivity]].
        split; [exact Hl |]. split; [intros q [] | left; reflexivity]. }
    destruct Hm' as (Hmounted & Hreq & Hnoreq).
    split; [exact Hmounted |]. split.
    + intros _. repeat split; assumption.
    + intros Hnone. rewrite Hf in Hnone. discriminate Hnone.
Qed.

Lemma pageStep_mountedOn foreignListeners a m :
  mountedOn foreignListeners m -> mountedOn foreignListeners (fst (pageStep a m)).
Proof.
  intros Hm. destruct a as [| i]; cbn [pageStep].
  - apply animationFrame_spec, Hm.
  - destruct i; try exact Hm;
      destruct (dispatch _ (instance m)) as [[r c] cs]; exact Hm.
Qed.

Lemma pageRun_mountedOn foreignListeners inputs m :
  mountedOn foreignListeners m -> mountedOn foreignListeners (fst (pageRun inputs m)).
Proof.
  revert m. induction inputs as [| a rest IH]; intros m Hm; [exact Hm |].
  cbn [pageRun]. pose proof (pageStep_mountedOn foreignListeners a m Hm) as Hstep.
  destruct (pageStep a m) as [m1 cs1]. cbn [fst] in Hstep.
  specialize (IH m1 Hstep). destruct (pageRun rest m1) as [m2 cs2]. exact IH.
Qed.

(** No method replaces [this.props]. *)
Lemma dispatch_props i c : props (exec (dispatch i) c) = props c.
Proof.
  unfold exec. destruct i as [x y | env | |]; cbn [dispatch].
  - rewrite handleScroll_run. reflexivity.
  - rewrite handleResize_run. destruct (getClientDimensions env); reflexivity.
  - destruct (tick_shape c) as (r & c' & cs & -> & _ & _ & Hp & _). exact Hp.
  - destruct c as [ss ds ls ld dirty sc dc n pr].
    unfold_methods. cbn.
    destruct sc as [[sa sr] |], dc as [[da dr] |]; cbn; split_tests; reflexivity.
Qed.

Lemma tick_returns c : returns (props c) -> outcome tick c = Ok tt.
Proof.
  intros Hret. destruct (tick_shape c) as (r & c' & cs & Hrun & _ & _ & _ & _ & Hcase).
  unfold outcome. rewrite Hrun. cbn [fst].
  destruct Hcase as [(-> & _) | (v & o & [(_ & -> & _) | (msg & Hthrow & _)] & _)];
    try reflexivity.
  rewrite (Hret v o) in Hthrow. discriminate Hthrow.
Qed.

Lemma pageStep_requesting foreignListeners a m :
  mountedOn foreignListeners m ->
  returns (props (instance m)) -> requesting m ->
  requesting (fst (pageStep a m)) /\
  props (instance (fst (pageStep a m))) = props (instance m).
Proof.
  intros Hm Hret Hreq. destruct a as [| i]; cbn [pageStep].
  - destruct (animationFrame_spec foreignListeners m Hm) as (_ & Hframe & _).
    destruct (Hframe Hreq) as (_ & Hinst & Hnext & _).
    split; [apply Hnext, tick_returns, Hret |].
    rewrite Hinst. apply (dispatch_props AnimationFrame).
  - destruct i as [x y | env | |]; try (split; [exact Hreq | reflexivity]).
    + pose proof (dispatch_props (ScrollEvent x y) (instance m)) as Hp.
      unfold exec in Hp. destruct (dispatch _ (instance m)) as [[r c] cs].
      split; [exact Hreq | exact Hp].
    + pose proof (dispatch_props (ResizeEvent env) (instance m)) as Hp.
      unfold exec in Hp. destruct (dispatch _ (instance m)) as [[r c] cs].
      split; [exact Hreq | exact Hp].
    + pose proof (dispatch_props ReadProps (instance m)) as Hp.
      unfold exec in Hp. destruct (dispatch _ (instance m)) as [[r c] cs].
      split; [exact Hreq | exact Hp].
Qed.

Lemma pageRun_requesting foreignListeners inputs m :
  mountedOn foreignListeners m ->
  returns (props (instance m)) -> requesting m ->
  requesting (fst (pageRun inputs m)).
Proof.
  revert m. induction inputs as [| a rest IH]; intros m Hm Hret Hreq; [exact Hreq |].
  cbn [pageRun].
  pose proof (pageStep_mountedOn foreignListeners a m Hm) as Hm1.
  destruct (pageStep_requesting foreignListeners a m Hm Hret Hreq) as [Hreq1 Hp1].
  destruct (pageStep a m) as [m1 cs1]. cbn [fst] in Hm1, Hreq1, Hp1.
  rewrite <- Hp1 in Hret. specialize (IH m1 Hm1 Hret Hreq1).
  destruct (pageRun rest m1) as [m2 cs2]. exact IH.
Qed.

Lemma filter_filter_comm {A : Type} (f g : A -> bool) l :
  filter f (filter g l) = filter g (filter f l).
Proof.
  induction l as [| a rest IH]; [reflexivity |].
  cbn. destruct (f a) eqn:Hf, (g a) eqn:Hg; cbn; rewrite ?Hf, ?Hg, IH; reflexivity.
Qed.

Lemma componentWillUnmount_clears foreignListeners m :
  (forall r, In r foreignListeners -> own (Page.callback r) = false) ->
  mountedOn foreignListeners m ->
  Page.listeners (page (componentWillUnmount m)) = foreignListeners /\
  filter (fun q => own (snd q)) (Page.frameRequests (page (componentWillUnmount m))) = [] /\
  instance (componentWillUnmount m) = instance m.
Proof.
  intros Hforeign (Hl & Hh & Hreq).
  unfold componentWillUnmount, Page.removeEventListener.
  cbn [page instance Page.listeners Page.frameRequests Page.captureOf].
  split; [| split; [| reflexivity]].
  - assert (Hlist :
      filter (fun r' => negb (Page.registration_eqb
                (Page.mkRegistration Page.orientationchange Page.handleResize false) r'))
        (filter (fun r' => negb (Page.registration_eqb
                   (Page.mkRegistration Page.resize Page.handleResize false) r'))
           (filter (fun r' => negb (Page.registration_eqb
                      (Page.mkRegistration Page.scroll Page.handleScroll false) r'))
              (Page.listeners (page m)))) = foreignListeners).
    { rewrite Hl. unfold ownListeners.
      rewrite filter_app, (filter_foreign _ foreignListeners)
        by (try reflexivity; exact Hforeign).
      rewrite filter_app, (filter_foreign _ foreignListeners)
        by (try reflexivity; exact Hforeign).
      rewrite filter_app, (filter_foreign _ foreignListeners)
        by (try reflexivity; exact Hforeign).
      cbn. apply app_nil_r. }
    destruct (tickId m); cbn [Page.cancel Page.listeners]; exact Hlist.
  - destruct Hreq as [Hnone | (handle & Ht & Hf)]; unfold ownRequests in *.
    + destruct (tickId m); cbn [Page.cancel Page.frameRequests]; [| exact Hnone].
      rewrite filter_filter_comm, Hnone. reflexivity.
    + rewrite Ht. cbn [Page.cancel Page.frameRequests].
      rewrite filter_filter_comm, Hf. cbn. rewrite Nat.eqb_refl. reflexivity.
Qed.

Lemma frames_without_request n m :
  filter (fun q => own (snd q)) (Page.frameRequests (page m)) = [] ->
  snd (pageRun (repeat PageFrame n) m) = [] /\
  instance (fst (pageRun (repeat PageFrame n) m)) = instance m /\
  tickId (fst (pageRun (repeat PageFrame n) m)) = tickId m /\
  Page.listeners (page (fst (pageRun (repeat PageFrame n) m))) = Page.listeners (page m).
Proof.
  revert m. induction n as [| n IH]; intros m Hf; [repeat split |].
  cbn [repeat pageRun pageStep]. unfold animationFrame.
  rewrite runRequests_foreign by (apply filter_own_nil, Hf).
  specialize (IH (mkMounted (instance m) (tickId m)
                    (Page.mk (Page.listeners (page m)) [] (Page.nextHandle (page m))))
                 eq_refl).
  destruct (pageRun (repeat PageFrame n) _) as [m2 cs2]. exact IH.
Qed.

(** X16: while the collector is mounted on a page on which it had
    nothing registered, its three listeners are registered once after
    the listeners of the page, and at most one frame request of the
    collector is pending, with [tickId] holding its handle.  A frame of
    the page with the request pending runs [tick] exactly once, and
    requests the next frame when [tick] returned and not when [onUpdate]
    threw; a frame with no request pending runs nothing.  As long as
    [onUpdate] never throws, the request is pending. *)
Theorem mounted_collector_ticks_once_per_frame
  (passive : bool) (c : Collector) (t : option nat) (p : Page.t)
  (inputs : list PageInput) :
  untouched p ->
  let m := fst (pageRun inputs (componentDidMount passive (mkMounted c t p))) in
  let m' := fst (animationFrame m) in
  Page.listeners (page m) = Page.listeners p ++ ownListeners /\
  (ownRequests m = [] \/
   exists handle, tickId m = Some handle /\ ownRequests m = [(handle, Page.tick)]) /\
  (ownRequests m <> [] ->
   snd (animationFrame m) = calls tick (instance m) /\
   instance m' = exec tick (instance m) /\
   (outcome tick (instance m) = Ok tt ->
    exists handle, tickId m' = Some handle /\ ownRequests m' = [(handle, Page.tick)]) /\
   (forall msg, outcome tick (instance m) = Throw msg -> ownRequests m' = [])) /\
  (ownRequests m = [] ->
   snd (animationFrame m) = [] /\ instance m' = instance m /\ ownRequests m' = []) /\
  (returns (props c) -> ownRequests m <> []).
Proof.
  intros Hp m m'.
  destruct (componentDidMount_mountedOn passive c t p Hp) as (Hm0 & Hreq0 & Hinst0).
  assert (Hm : mountedOn (Page.listeners p) m) by (apply pageRun_mountedOn, Hm0).
  destruct (animationFrame_spec _ m Hm) as (_ & Hframe & Hidle).
  destruct Hm as (Hl & _ & Hreq).
  split; [exact Hl |]. split; [exact Hreq |]. split; [| split; [exact Hidle |]].
  - intros Hsome. apply Hframe.
    destruct Hreq as [Hnone | Hone]; [contradiction | exact Hone].
  - intros Hret.
    assert (Hone : requesting m).
    { apply (pageRun_requesting (Page.listeners p)); [exact Hm0 | | exact Hreq0].
      rewrite Hinst0. exact Hret. }
    destruct Hone as (handle & _ & Hf). rewrite Hf. discriminate.
Qed.

(** X17: unmounting releases the page: the listeners are again those
    the page had before mounting, for either value of
    [browserSupportsPassiveEvents], no frame request of the collector
    stays pending, and later frames run no [tick]: they make no call and
    leave the instance as unmounting found it. *)
Theorem unmount_releases_the_page
  (passive : bool) (c : Collector) (t : option nat) (p : Page.t)
  (inputs : list PageInput) (n : nat) :
  untouched p ->
  let m := fst (pageRun inputs (componentDidMount passive (mkMounted c t p))) in
  let m' := componentWillUnmount m in
  Page.listeners (page m') = Page.listeners p /\
  filter (fun q => own (snd q)) (Page.frameRequests (page m')) = [] /\
  instance m' = instance m /\
  snd (pageRun (repeat PageFrame n) m') = [] /\
  instance (fst (pageRun (repeat PageFrame n) m')) = instance m.
Proof.
  intros Hp m m'.
  assert (Hm : mountedOn (Page.listeners p) m)
    by (apply pageRun_mountedOn, componentDidMount_mountedOn, Hp).
  destruct (componentWillUnmount_clears _ m (proj1 Hp) Hm) as (Hl & Hf & Hi).
  fold m' in Hl, Hf, Hi.
  destruct (frames_without_request n m' Hf) as (Hc & Hi' & _).
  rewrite Hi' , Hi. repeat split; assumption.
Qed.

Lemma mounted_collector_ticks_once_per_frame_witness :
  let m := fst (pageRun [Deliver (ScrollEvent 0 50); PageFrame; Deliver (ScrollEvent 0 30)]
                  (componentDidMount true (mkMounted blankCollector None busyPage))) in
  snd (animationFrame m) = calls tick (instance m).
Proof.
  cbv zeta.
  assert (Hp : untouched busyPage).
  { unfold untouched, busyPage; cbn. repeat split; intros q [<- | []]; cbn; auto. }
  pose proof (mounted_collector_ticks_once_per_frame true blankCollector None busyPage
                [Deliver (ScrollEvent 0 50); PageFrame; Deliver (ScrollEvent 0 30)]
                Hp) as H.
  cbv zeta in H. destruct H as (_ & _ & Hframe & _ & Hret).
  apply Hframe, Hret. intros v o. reflexivity.
Defined.

Lemma unmount_releases_the_page_witness :
  let m := fst (pageRun [Deliver (ScrollEvent 0 50); PageFrame; Deliver (ScrollEvent 0 30)]
                  (componentDidMount false (mkMounted blankCollector None busyPage))) in
  Page.listeners (page (componentWillUnmount m)) = Page.listeners busyPage /\
  snd (pageRun (repeat PageFrame 3) (componentWillUnmount m)) = [].
Proof.
  cbv zeta.
  assert (Hp : untouched busyPage).
  { unfold untouched, busyPage; cbn. repeat split; intros q [<- | []]; cbn; auto. }
  pose proof (unmount_releases_the_page false blankCollector None busyPage
                [Deliver (ScrollEvent 0 50); PageFrame; Deliver (ScrollEvent 0 30)] 3
                Hp) as H.
  cbv zeta in H. destruct H as (Hl & _ & _ & Hc & _). split; assumption.
Defined.
